(** * Medical appointment no-show predictor: a shallow embedding

    The development follows [noshow_predictor.py]: the data preprocessor
    (synthetic generator, feature engineering, feature encoding), the
    prediction engine (model menu, selection by ROC-AUC, single-record
    prediction) and the two web routes that drive them.

    Conventions.
    - Python [int] is [Z]; Python [float] is an exact rational [Q]: every
      float expression of the source is read as the real-number expression
      it denotes.  Module [Binary64] re-evaluates the numeric scenarios in
      IEEE binary64 arithmetic.
    - A pandas [DataFrame] is an ordered association list from column
      names to columns; a Python [dict] whose order is never observed is a
      [gmap]; the per-algorithm results dict, whose iteration order decides
      the winner, is an association list in insertion order.
    - A Python exception is the [Raise] branch of [Exc]; mutable objects
      are passed explicitly and returned in the state they have when the
      call ends, also when it ends by raising.
    - numpy's random generator, [pd.to_datetime] and scikit-learn are
      interfaces ([NumpyRandom], [Pandas], [Sklearn]).
    - [print] calls, the HTML of the dashboard and the plotting route are
      left out; the script of the dashboard that builds the posted record
      is [dashboard]. *)

From Stdlib Require Import ZArith QArith Qminmax Lqa Lia String List Bool.
From Stdlib Require Import Floats Uint63 Qabs Sorted Permutation.
From Stdlib Require Import Ascii.
From stdpp Require Import base option list gmap strings.

Import ListNotations.
Local Open Scope string_scope.
Local Open Scope Z_scope.
Local Open Scope list_scope.

(** ** Exceptions *)

Inductive exn : Type :=
| KeyError (cols : list string)
| ValueError (msg : string)
| TypeError (msg : string)
| AttributeError (msg : string)
| IndexError (msg : string)
| NotFittedError (msg : string)
| UnicodeEncodeError (msg : string).

Inductive Exc (A : Type) : Type :=
| Ok (a : A)
| Raise (e : exn).
Arguments Ok {A} a.
Arguments Raise {A} e.

#[global] Instance Exc_ret : MRet Exc := fun _ a => Ok a.
#[global] Instance Exc_bind : MBind Exc := fun _ _ f m =>
  match m with
  | Ok a => f a
  | Raise e => Raise e
  end.

Fixpoint mapE {A B : Type} (f : A -> Exc B) (l : list A) : Exc (list B) :=
  match l with
  | [] => Ok []
  | a :: l' => b ← f a; bs ← mapE f l'; Ok (b :: bs)
  end.

Definition is_Ok {A : Type} (r : Exc A) : bool :=
  match r with Ok _ => true | Raise _ => false end.

(** ** Values, columns and frames *)

Inductive value : Type :=
| VInt (z : Z)
| VFloat (q : Q)
| VStr (s : string)
| VDatetime (day hour : Z)
| VNaN.

Definition series : Type := list value.

Definition DataFrame : Type := list (string * series).

Fixpoint df_lookup (df : DataFrame) (col : string) : option series :=
  match df with
  | [] => None
  | (c, s) :: df' => if String.eqb c col then Some s else df_lookup df' col
  end.

(** [df[col]]. *)
Definition getitem (df : DataFrame) (col : string) : Exc series :=
  match df_lookup df col with
  | Some s => Ok s
  | None => Raise (KeyError [col])
  end.

(** [col in df.columns]. *)
Definition has_column (df : DataFrame) (col : string) : bool :=
  match df_lookup df col with Some _ => true | None => false end.

(** [df[col] = s]: an existing column is replaced where it stands, a new
    one is appended. *)
Fixpoint setitem (df : DataFrame) (col : string) (s : series) : DataFrame :=
  match df with
  | [] => [(col, s)]
  | (c, s') :: df' =>
      if String.eqb c col then (c, s) :: df' else (c, s') :: setitem df' col s
  end.

(** [df[cols]]: the listed columns in the listed order; pandas names every
    missing column in the [KeyError]. *)
Definition select (df : DataFrame) (cols : list string) : Exc DataFrame :=
  match List.filter (fun c => negb (has_column df c)) cols with
  | [] => mapE (fun c => s ← getitem df c; Ok (c, s)) cols
  | missing => Raise (KeyError missing)
  end.

Definition as_int (v : value) : Exc Z :=
  match v with
  | VInt z => Ok z
  | _ => Raise (TypeError "int64 column expected")
  end.

Definition as_str (v : value) : Exc string :=
  match v with
  | VStr s => Ok s
  | _ => Raise (TypeError "str column expected")
  end.

(** An int64 column of the frame, as the generator produces them. *)
Definition int_column (df : DataFrame) (col : string) : Exc (list Z) :=
  s ← getitem df col; mapE as_int s.

Definition b2z (b : bool) : Z := if b then 1 else 0.

(** ** numpy and pandas helpers *)

Definition Qltb (x y : Q) : bool := negb (Qle_bool y x).

(** [np.clip x lo hi = minimum (maximum x lo) hi]. *)
Definition np_clip (x lo hi : Q) : Q :=
  let m := if Qltb x lo then lo else x in
  if Qltb hi m then hi else m.

(** [astype(int)] on a float: truncation toward zero. *)
Definition astype_int (x : Q) : Z := Z.quot (Qnum x) (Zpos (Qden x)).

(** [bins.searchsorted(x, side='left')] on increasing bins: the number of
    edges strictly below [x]. *)
Fixpoint searchsorted_left (bins : list Z) (x : Z) : nat :=
  match bins with
  | [] => O
  | b :: bins' => if b <? x then S (searchsorted_left bins' x) else O
  end.

(** [pd.cut x bins labels] with pandas' defaults [right=True] and
    [include_lowest=False]: the bin index is [searchsorted(side='left')];
    index 0 and index [len(bins)] are outside every bin and give NaN. *)
Definition pd_cut (x : Z) (bins : list Z) (labels : list string)
  : option string :=
  let ids := searchsorted_left bins x in
  if (Nat.eqb ids 0 || Nat.eqb ids (length bins))%bool then None
  else nth_error labels (ids - 1).

Definition categorical (o : option string) : value :=
  match o with Some l => VStr l | None => VNaN end.

(** ** Feature engineering, one row at a time *)

Definition age_bins : list Z := [0; 18; 35; 50; 65; 100].
Definition age_labels : list string :=
  ["child"; "young_adult"; "adult"; "middle_aged"; "senior"].

Definition age_group (Age : Z) : option string :=
  pd_cut Age age_bins age_labels.

Definition total_conditions
    (Hipertension Diabetes Alcoholism Handcap : Z) : Z :=
  Hipertension + Diabetes + Alcoholism + b2z (Handcap >? 0).

(** The risk score of a row, as the exact value of the source
    expression.  The code evaluates that expression in doubles
    ([Binary64.risk_score] below, term by term in the same order), so its
    result can differ from this one in the last place; statements that
    depend on the last place are made of the doubles. *)
Definition risk_score (Age SMS_received days_between Scholarship : Z) : Q :=
  (inject_Z (b2z (Age <? 18)) * 0.3 +
   inject_Z (b2z (Age >? 80)) * 0.1 +
   inject_Z (1 - SMS_received) * 0.4 +
   np_clip (inject_Z days_between / 30.0) 0 1 * 0.3 +
   inject_Z Scholarship * 0.2)%Q.

Definition is_weekend (appointment_weekday : Z) : Z :=
  b2z ((appointment_weekday =? 5) || (appointment_weekday =? 6))%bool.


(** The bins of the specification: half-open [lo, hi), the last one closed
    at 100. *)
Definition spec_age_group (age : Z) : option string :=
  if (0 <=? age) && (age <? 18) then Some "child"
  else if (18 <=? age) && (age <? 35) then Some "young_adult"
  else if (35 <=? age) && (age <? 50) then Some "adult"
  else if (50 <=? age) && (age <? 65) then Some "middle_aged"
  else if (65 <=? age) && (age <=? 100) then Some "senior"
  else None.

(** ** Library interfaces *)

(** [pd.to_datetime] on a column that is not yet of a datetime dtype. *)
Class Pandas : Type := {
  to_datetime : series -> Exc series
}.

(** numpy's global random generator.  Every sampler reads the generator
    state and returns the advanced state with its sample. *)
Class NumpyRandom : Type := {
  RandomState : Type;
  np_random_seed : Z -> RandomState;
  np_random_exponential :
    Q -> Z -> RandomState -> list Q * RandomState;
  np_random_choice :
    forall {A : Type}, list A -> option (list Q) -> Z ->
                       RandomState -> list A * RandomState;
  np_random_binomial :
    Z -> Q -> Z -> RandomState -> list Z * RandomState;
  np_random_binomial_array :
    Z -> list Q -> Z -> RandomState -> list Z * RandomState;
  np_random_randint :
    Z -> Z -> Z -> RandomState -> list Z * RandomState;
  np_random_randint_scalar :
    Z -> Z -> RandomState -> Z * RandomState
}.

(** Code that draws from the global generator. *)
Definition Rand `{NumpyRandom} (A : Type) : Type :=
  RandomState -> A * RandomState.

Definition rand_ret `{NumpyRandom} {A : Type} (a : A) : Rand A :=
  fun g => (a, g).

Definition rand_bind `{NumpyRandom} {A B : Type}
    (m : Rand A) (k : A -> Rand B) : Rand B :=
  fun g => let '(a, g') := m g in k a g'.

Notation "'draw' x ':=' m 'in' k" := (rand_bind m (fun x => k))
  (at level 10, x name, m at level 100, k at level 200,
   format "'[v' 'draw'  x  ':='  m  'in' '/' k ']'").

(** ** The data preprocessor *)

Fixpoint map4 {A B C D E : Type} (f : A -> B -> C -> D -> E)
    (la : list A) (lb : list B) (lc : list C) (ld : list D) : list E :=
  match la, lb, lc, ld with
  | a :: la', b :: lb', c :: lc', d :: ld' =>
      f a b c d :: map4 f la' lb' lc' ld'
  | _, _, _, _ => []
  end.

Definition is_datetime (v : value) : bool :=
  match v with VDatetime _ _ => true | _ => false end.

(** A column built from Python [datetime] objects has dtype
    [datetime64[ns]]; an empty one has dtype [object]. *)
Definition is_datetime64_any_dtype (s : series) : bool :=
  match s with
  | [] => false
  | _ => forallb is_datetime s
  end.

(** [s.dt.hour]. *)
Definition dt_hour (s : series) : Exc series :=
  mapE (fun v => match v with
                 | VDatetime _ h => Ok (VInt h)
                 | _ => Raise (AttributeError
                          "Can only use .dt accessor with datetimelike values")
                 end) s.

(** 2016-04-29 00:00, as a day count from 1970-01-01 and an hour. *)
Definition base_date : Z * Z := (16920, 0).

Definition add_days (d : Z * Z) (days : Z) : value :=
  VDatetime (fst d + days) (snd d).

Section Generator.
Context `{NumpyRandom}.

(** [[base_date + timedelta(days=np.random.randint(-30, 1))
      for _ in range(n)]]: one scalar draw per row, in row order. *)
Fixpoint scheduled_days (n : nat) : Rand (list (Z * Z)) :=
  match n with
  | O => rand_ret []
  | S n' =>
      draw d := np_random_randint_scalar (-30) 1 in
      draw ds := scheduled_days n' in
      rand_ret ((fst base_date + d, snd base_date) :: ds)
  end.

(** The body of [load_and_clean_data], with its two literals (the seed
    [42] and [n_samples = 10000]) as arguments.  Draws are made in the
    order in which the source evaluates them. *)
Definition synthetic_data (seed : Z) (n_samples : Z) : Rand DataFrame :=
  fun _ =>
  (draw ages := np_random_exponential 25 n_samples in
   let ages := map (fun a => astype_int (np_clip a 0 95)) ages in
   draw genders := np_random_choice ["M"; "F"] None n_samples in
   let age_factor := map (fun a => inject_Z a / 100.0)%Q ages in
   draw hipertension :=
     np_random_binomial_array 1
       (map (fun f => np_clip (f * 0.4 + 0.1) 0 0.8)%Q age_factor) n_samples in
   draw diabetes :=
     np_random_binomial_array 1
       (map (fun f => np_clip (f * 0.3 + 0.05) 0 0.4)%Q age_factor) n_samples in
   draw alcoholism := np_random_binomial 1 0.05%Q n_samples in
   let scholarship_prob :=
     map (fun f => np_clip (0.3 - f * 0.2) 0.05 0.3)%Q age_factor in
   draw scholarship := np_random_binomial_array 1 scholarship_prob n_samples in
   draw handcap :=
     np_random_choice [0; 1; 2; 3; 4]
       (Some [0.92; 0.05; 0.02; 0.008; 0.002]%Q) n_samples in
   draw sms_received := np_random_binomial 1 0.68%Q n_samples in
   draw days_between := np_random_exponential 7 n_samples in
   let days_between :=
     map (fun d => astype_int (np_clip d 0 179)) days_between in
   draw scheduled_weekday := np_random_choice (seqZ 0 7) None n_samples in
   draw appointment_weekday := np_random_choice (seqZ 0 7) None n_samples in
   let no_show_base_prob := 0.2%Q in
   let age_effect :=
     map (fun a => if a <? 18 then 0.15
                   else if a >? 65 then -0.05 else 0)%Q ages in
   let sms_effect :=
     map (fun s => if s =? 0 then 0.25 else -0.05)%Q sms_received in
   let days_effect :=
     map (fun d => np_clip (inject_Z d * 0.01) 0 0.3)%Q days_between in
   let health_effect :=
     map (fun s => inject_Z (- s) * 0.05)%Q
       (zip_with Z.add hipertension diabetes) in
   let weekend_effect :=
     map (fun w => if (w =? 5) || (w =? 6) then 0.1 else 0)%Q
       appointment_weekday in
   let scholarship_effect :=
     map (fun s => if s =? 1 then 0.08 else 0)%Q scholarship in
   let no_show_prob :=
     map (fun p => np_clip p 0.05 0.85)
       (zip_with Qplus
         (zip_with Qplus
           (zip_with Qplus
             (zip_with Qplus
               (zip_with Qplus (map (Qplus no_show_base_prob) age_effect)
                               sms_effect)
               days_effect)
             health_effect)
           weekend_effect)
         scholarship_effect) in
   draw no_show := np_random_binomial_array 1 no_show_prob n_samples in
   draw patient_id := np_random_randint 1000000 9999999 n_samples in
   draw appointment_id := np_random_randint 5000000 6000000 n_samples in
   draw neighbourhood :=
     np_random_choice ["JARDIM DA PENHA"; "MATA DA PRAIA"; "PONTAL DE CAMBURI"]
       None n_samples in
   let df : DataFrame :=
     [("PatientId", map VInt patient_id);
      ("AppointmentID", map VInt appointment_id);
      ("Gender", map VStr genders);
      ("Age", map VInt ages);
      ("Neighbourhood", map VStr neighbourhood);
      ("Scholarship", map VInt scholarship);
      ("Hipertension", map VInt hipertension);
      ("Diabetes", map VInt diabetes);
      ("Alcoholism", map VInt alcoholism);
      ("Handcap", map VInt handcap);
      ("SMS_received", map VInt sms_received);
      ("days_between", map VInt days_between);
      ("scheduled_weekday", map VInt scheduled_weekday);
      ("appointment_weekday", map VInt appointment_weekday);
      ("No-show", map VInt no_show)] in
   draw scheduled := scheduled_days (Z.to_nat n_samples) in
   let df := setitem df "ScheduledDay"
               (map (fun d => VDatetime (fst d) (snd d)) scheduled) in
   let df := setitem df "AppointmentDay"
               (zip_with add_days scheduled days_between) in
   rand_ret df) (np_random_seed seed).

Definition load_and_clean_data (filepath : string) : Rand DataFrame :=
  synthetic_data 42 10000.
End Generator.

Section FeatureEngineering.
Context `{Pandas}.

Definition ensure_datetime (df : DataFrame) (col : string) : Exc DataFrame :=
  s ← getitem df col;
  if negb (is_datetime64_any_dtype s)
  then s' ← to_datetime s; Ok (setitem df col s')
  else Ok df.

Definition feature_engineering (df : DataFrame) : Exc DataFrame :=
  df ← ensure_datetime df "ScheduledDay";
  df ← ensure_datetime df "AppointmentDay";
  df ← (if negb (has_column df "scheduled_hour")
        then s ← getitem df "ScheduledDay";
             h ← dt_hour s;
             Ok (setitem df "scheduled_hour" h)
        else Ok df);
  Age ← int_column df "Age";
  let df := setitem df "age_group"
              (map (fun a => categorical (age_group a)) Age) in
  Hipertension ← int_column df "Hipertension";
  Diabetes ← int_column df "Diabetes";
  Alcoholism ← int_column df "Alcoholism";
  Handcap ← int_column df "Handcap";
  let df := setitem df "total_conditions"
              (map VInt (map4 total_conditions
                           Hipertension Diabetes Alcoholism Handcap)) in
  Age ← int_column df "Age";
  SMS_received ← int_column df "SMS_received";
  days_between ← int_column df "days_between";
  Scholarship ← int_column df "Scholarship";
  let df := setitem df "risk_score"
              (map VFloat (map4 risk_score
                             Age SMS_received days_between Scholarship)) in
  appointment_weekday ← int_column df "appointment_weekday";
  let df := setitem df "is_weekend"
              (map (fun w => VInt (is_weekend w)) appointment_weekday) in
  Ok df.
End FeatureEngineering.

(** ** The label encoder and the feature encoder *)

(** [sklearn.preprocessing.LabelEncoder]: [classes_] is absent until the
    encoder has been fitted. *)
Record LabelEncoder : Type := { classes_ : option (list string) }.

Fixpoint insert_sorted (s : string) (l : list string) : list string :=
  match l with
  | [] => [s]
  | x :: l' =>
      match String.compare s x with
      | Lt => s :: l
      | Eq => l
      | Gt => x :: insert_sorted s l'
      end
  end.

(** [np.unique]: the distinct labels in increasing order. *)
Definition np_unique (l : list string) : list string :=
  foldr insert_sorted [] l.

Fixpoint index_of (s : string) (l : list string) : option Z :=
  match l with
  | [] => None
  | x :: l' => if String.eqb x s then Some 0 else Z.succ <$> index_of s l'
  end.

Definition LabelEncoder_fit (y : series) : Exc LabelEncoder :=
  labels ← mapE as_str y;
  Ok {| classes_ := Some (np_unique labels) |}.

Definition unseen : exn := ValueError "y contains previously unseen labels".

Definition LabelEncoder_transform (le : LabelEncoder) (y : series)
  : Exc series :=
  match classes_ le with
  | None =>
      Raise (NotFittedError "This LabelEncoder instance is not fitted yet")
  | Some classes =>
      mapE (fun v => match v with
                     | VStr g => match index_of g classes with
                                 | Some i => Ok (VInt i)
                                 | None => Raise unseen
                                 end
                     | _ => Raise unseen
                     end) y
  end.

(** [s.map({'F': 0, 'M': 1}).fillna(0)]: a label outside the dict maps to
    NaN and is then filled with 0; the column turns to float64 as soon as
    one NaN had to be filled. *)
Definition gender_code (v : value) : option Z :=
  match v with
  | VStr "F" => Some 0
  | VStr "M" => Some 1
  | _ => None
  end.

Definition map_fillna (s : series) : series :=
  let codes := map gender_code s in
  if forallb (fun o => match o with Some _ => true | None => false end) codes
  then map (fun o => VInt (default 0 o)) codes
  else map (fun o => VFloat (inject_Z (default 0 o))) codes.

(** The preprocessor object; its [scaler] attribute is never used. *)
Record DataPreprocessor : Type := {
  label_encoders : gmap string LabelEncoder
}.

Definition feature_cols : list string :=
  ["Age"; "Gender"; "Scholarship"; "Hipertension"; "Diabetes";
   "Alcoholism"; "Handcap"; "SMS_received"; "days_between";
   "scheduled_weekday"; "appointment_weekday"; "total_conditions";
   "risk_score"; "is_weekend"].

(** [prepare_features]: the result (or the exception) and the preprocessor
    as the call leaves it.  In fit mode the fresh encoder is stored before
    it is fitted, as in the source. *)
Definition prepare_features (self : DataPreprocessor) (df : DataFrame)
    (fit_encoders : bool)
  : Exc (DataFrame * option series) * DataPreprocessor :=
  match select df feature_cols with
  | Raise e => (Raise e, self)
  | Ok X =>
      let '(rX, self) :=
        if fit_encoders then
          let self :=
            {| label_encoders :=
                 <["Gender" := {| classes_ := None |}]> (label_encoders self) |} in
          match (g ← getitem X "Gender";
                 le ← LabelEncoder_fit g;
                 codes ← LabelEncoder_transform le g;
                 Ok (le, codes)) with
          | Ok (le, codes) =>
              (Ok (setitem X "Gender" codes),
               {| label_encoders := <["Gender" := le]> (label_encoders self) |})
          | Raise e => (Raise e, self)
          end
        else
          match label_encoders self !! "Gender" with
          | Some le =>
              (g ← getitem X "Gender";
               codes ← LabelEncoder_transform le g;
               Ok (setitem X "Gender" codes), self)
          | None =>
              (g ← getitem X "Gender";
               Ok (setitem X "Gender" (map_fillna g)), self)
          end in
      match rX with
      | Raise e => (Raise e, self)
      | Ok X =>
          let y := if has_column df "No-show"
                   then df_lookup df "No-show" else None in
          (Ok (X, y), self)
      end
  end.

(** ** scikit-learn *)

Inductive Estimator : Type :=
| RandomForestClassifier
    (n_estimators max_depth min_samples_split min_samples_leaf random_state : Z)
    (class_weight : string)
| GradientBoostingClassifier
    (n_estimators : Z) (learning_rate : Q) (max_depth random_state : Z)
| LogisticRegression
    (random_state max_iter : Z) (class_weight : string) (C : Q)
| SVC (probability : bool) (random_state : Z) (class_weight : string)
    (C : Q) (kernel : string).

(** The estimators, the splitter and the metric functions.  Each may
    raise; [predict_proba] returns the column of the positive class. *)
Class Sklearn : Type := {
  Model : Type;
  train_test_split :
    DataFrame -> option series -> Q -> Z ->
    Exc (DataFrame * DataFrame * series * series);
  fit : Estimator -> DataFrame -> series -> Exc Model;
  predict : Model -> DataFrame -> Exc (list Z);
  predict_proba : Model -> DataFrame -> Exc (list Q);
  accuracy_score : series -> list Z -> Exc Q;
  precision_score : series -> list Z -> Exc Q;
  recall_score : series -> list Z -> Exc Q;
  f1_score : series -> list Z -> Exc Q;
  roc_auc_score : series -> list Q -> Exc Q;
  (** a predicted probability is a probability *)
  predict_proba_range :
    forall (m : Model) (X : DataFrame) (ps : list Q),
      predict_proba m X = Ok ps -> Forall (fun p => 0 <= p /\ p <= 1)%Q ps
}.

(** ** The console *)

(** [print], which writes to [sys.stdout].  Text of ASCII characters is
    taken to be written always; text with other characters raises
    [UnicodeEncodeError] when the encoding of the stream has no code for
    them.  The source prints ASCII text at lines 113-116, 226-233, 258-259,
    749-761 and some lines of the startup block: those calls are left out
    of the functions below.  Every print of other text goes through
    [print], at the place where the source has it. *)
Definition is_ascii (text : string) : bool :=
  forallb (fun c => (nat_of_ascii c <? 128)%nat) (list_ascii_of_string text).

Class Stdout : Type := {
  print : string -> Exc unit;
  print_ascii : forall text : string, is_ascii text = true -> print text = Ok tt
}.

Definition newline : string := String "010" "".

(** The line that announces the winner (source line 267). *)
Definition winner_line (best_model_name : string) : string :=
  (newline ++ "🏆 Winner: " ++ best_model_name ++ " performs best!")%string.

(** ** The prediction engine *)

Record Metrics : Type := {
  accuracy : Q;
  precision : Q;
  recall : Q;
  f1 : Q;
  roc_auc : Q
}.

(** [max(iterable, key=key)]: the first item is the candidate, and a later
    item replaces it only when its key is strictly greater. *)
Fixpoint max_from {A : Type} (key : A -> Q) (best : A) (l : list A) : A :=
  match l with
  | [] => best
  | x :: l' => max_from key (if Qltb (key best) (key x) then x else best) l'
  end.

Definition py_max {A : Type} (key : A -> Q) (l : list A) : Exc A :=
  match l with
  | [] => Raise (ValueError "max() arg is an empty sequence")
  | x :: l' => Ok (max_from key x l')
  end.

(** [d[k] = v] on a dict: a present key keeps its place. *)
Fixpoint dict_set {V : Type} (d : list (string * V)) (k : string) (v : V)
  : list (string * V) :=
  match d with
  | [] => [(k, v)]
  | (k', v') :: d' =>
      if String.eqb k' k then (k', v) :: d' else (k', v') :: dict_set d' k v
  end.

Fixpoint dict_get {V : Type} (d : list (string * V)) (k : string) : option V :=
  match d with
  | [] => None
  | (k', v) :: d' => if String.eqb k' k then Some v else dict_get d' k
  end.

Definition risk_level_of (probability : Q) : string :=
  if Qltb 0.6 probability then "High"
  else if Qltb 0.3 probability then "Medium"
  else "Low".

Record Prediction : Type := {
  no_show_probability : Q;
  prediction : Z;
  risk_level : string
}.

(** The menu of [train_models], in the order of the dict literal. *)
Definition menu : list (string * Estimator) :=
  [("Random Forest", RandomForestClassifier 100 10 5 2 42 "balanced");
   ("Gradient Boosting", GradientBoostingClassifier 100 0.1 6 42);
   ("Logistic Regression", LogisticRegression 42 1000 "balanced" 1.0);
   ("SVM", SVC true 42 "balanced" 1.0 "rbf")].

Section Predictor.
Context `{Sklearn} `{Stdout}.

Record ModelResult : Type := {
  model : Model;
  metrics : Metrics;
  predictions : list Z;
  probabilities : list Q
}.

Record NoShowPredictor : Type := {
  models : list (string * ModelResult);
  best_model : option Model;
  best_model_name : option string;
  preprocessor : DataPreprocessor
}.

(** [NoShowPredictor()]. *)
Definition new_predictor : NoShowPredictor :=
  {| models := [];
     best_model := None;
     best_model_name := None;
     preprocessor := {| label_encoders := ∅ |} |}.

(** The body of the loop over [models.items()]. *)
Definition evaluate (estimator : Estimator)
    (X_train : DataFrame) (y_train : series)
    (X_test : DataFrame) (y_test : series) : Exc ModelResult :=
  m ← fit estimator X_train y_train;
  y_pred ← predict m X_test;
  y_pred_proba ← predict_proba m X_test;
  acc ← accuracy_score y_test y_pred;
  prec ← precision_score y_test y_pred;
  rec ← recall_score y_test y_pred;
  f ← f1_score y_test y_pred;
  auc ← roc_auc_score y_test y_pred_proba;
  Ok {| model := m;
        metrics := {| accuracy := acc; precision := prec; recall := rec;
                      f1 := f; roc_auc := auc |};
        predictions := y_pred;
        probabilities := y_pred_proba |}.

Fixpoint evaluate_all (todo : list (string * Estimator))
    (results : list (string * ModelResult))
    (X_train : DataFrame) (y_train : series)
    (X_test : DataFrame) (y_test : series)
  : Exc (list (string * ModelResult)) :=
  match todo with
  | [] => Ok results
  | (name, estimator) :: todo' =>
      r ← evaluate estimator X_train y_train X_test y_test;
      evaluate_all todo' (dict_set results name r) X_train y_train X_test y_test
  end.

Definition auc_of (results : list (string * ModelResult)) (name : string) : Q :=
  match dict_get results name with
  | Some r => roc_auc (metrics r)
  | None => 0
  end.

(** [train_models]: the local [results] dict is filled by the loop; the
    three attributes are assigned after the winner is known, and before
    the winner is announced: when that print raises, the exception leaves
    the predictor with the new attributes. *)
Definition train_models (self : NoShowPredictor)
    (X_train : DataFrame) (y_train : series)
    (X_test : DataFrame) (y_test : series)
  : Exc (list (string * ModelResult)) * NoShowPredictor :=
  match (results ← evaluate_all menu [] X_train y_train X_test y_test;
         name ← py_max (auc_of results) results.*1;
         Ok (results, name)) with
  | Raise e => (Raise e, self)
  | Ok (results, name) =>
      match dict_get results name with
      | None => (Raise (KeyError [name]), self)
      | Some r =>
          let self := {| models := results;
                         best_model := Some (model r);
                         best_model_name := Some name;
                         preprocessor := preprocessor self |} in
          match print (winner_line name) with
          | Raise e => (Raise e, self)
          | Ok _ => (Ok results, self)
          end
      end
  end.

(** [pd.DataFrame([patient_data])]: one row, one column per key. *)
Definition single_row (patient_data : gmap string value) : DataFrame :=
  map (fun kv => (fst kv, [snd kv])) (map_to_list patient_data).

Definition first {A : Type} (l : list A) : Exc A :=
  match l with
  | [] => Raise (IndexError "index 0 is out of bounds for axis 0 with size 0")
  | a :: _ => Ok a
  end.

Definition untrained : exn := ValueError "Need to train the model first!".

Definition predict_single (self : NoShowPredictor)
    (patient_data : gmap string value)
  : Exc Prediction * NoShowPredictor :=
  match best_model self with
  | None => (Raise untrained, self)
  | Some best =>
      let '(r, pre) :=
        prepare_features (preprocessor self) (single_row patient_data) false in
      let self := {| models := models self;
                     best_model := best_model self;
                     best_model_name := best_model_name self;
                     preprocessor := pre |} in
      match r with
      | Raise e => (Raise e, self)
      | Ok (X, _) =>
          (probability ← predict_proba best X ≫= first;
           decision ← predict best X ≫= first;
           Ok {| no_show_probability := probability;
                 prediction := decision;
                 risk_level := risk_level_of probability |},
           self)
      end
  end.
End Predictor.

(** ** The web application *)

(** [str(e)], as the routes send it. *)
Definition str (e : exn) : string :=
  match e with
  | KeyError [col] => ("'" ++ col ++ "'")%string
  | KeyError cols =>
      ("[" ++ String.concat ", " (map (fun c => "'" ++ c ++ "'") cols)
           ++ "] not in index")%string
  | ValueError msg | TypeError msg | AttributeError msg
  | IndexError msg | NotFittedError msg | UnicodeEncodeError msg => msg
  end.

(** The fields of the prediction form, after [parseInt]. *)
Record Form : Type := {
  form_Age : Z;
  form_Gender : string;
  form_days_between : Z;
  form_SMS_received : Z;
  form_Scholarship : Z;
  form_Hipertension : Z;
  form_Diabetes : Z;
  form_Alcoholism : Z;
  form_Handcap : Z
}.

(** The record the dashboard script posts to [/predict]: the form fields
    and the "calculated fields" the script adds. *)
Definition dashboard (f : Form) : gmap string value :=
  let data : gmap string value :=
    {[ "Age" := VInt (form_Age f);
       "Gender" := VStr (form_Gender f);
       "days_between" := VInt (form_days_between f);
       "SMS_received" := VInt (form_SMS_received f);
       "Scholarship" := VInt (form_Scholarship f);
       "Hipertension" := VInt (form_Hipertension f);
       "Diabetes" := VInt (form_Diabetes f);
       "Alcoholism" := VInt (form_Alcoholism f);
       "Handcap" := VInt (form_Handcap f) ]} in
  let data := <["scheduled_weekday" := VInt 1]> data in
  let data := <["appointment_weekday" := VInt 1]> data in
  let data :=
    <["total_conditions" :=
        VInt (form_Hipertension f + form_Diabetes f + form_Alcoholism f
              + (if form_Handcap f >? 0 then 1 else 0))]> data in
  let data :=
    <["risk_score" :=
        VFloat ((if form_Age f <? 18 then 0.3 else 0)
                + (if form_Age f >? 80 then 0.1 else 0)
                + inject_Z (1 - form_SMS_received f) * 0.4
                + Qmin (inject_Z (form_days_between f) / 30.0) 1 * 0.3
                + inject_Z (form_Scholarship f) * 0.2)%Q]> data in
  <["is_weekend" := VInt 0]> data.

(** The form fields alone: a record without the calculated fields. *)
Definition raw_record (f : Form) : gmap string value :=
  {[ "Age" := VInt (form_Age f);
     "Gender" := VStr (form_Gender f);
     "days_between" := VInt (form_days_between f);
     "SMS_received" := VInt (form_SMS_received f);
     "Scholarship" := VInt (form_Scholarship f);
     "Hipertension" := VInt (form_Hipertension f);
     "Diabetes" := VInt (form_Diabetes f);
     "Alcoholism" := VInt (form_Alcoholism f);
     "Handcap" := VInt (form_Handcap f);
     "scheduled_weekday" := VInt 1;
     "appointment_weekday" := VInt 1 ]}.

Inductive Response : Type :=
| JsonError (error : string)
| JsonTrained (best : string) (m : Metrics)
| JsonPrediction (p : Prediction).

Definition is_error (r : Response) : bool :=
  match r with JsonError _ => true | _ => false end.

Module Routes.
Section Routes.
Context `{NumpyRandom} `{Pandas} `{Sklearn} `{Stdout}.

(** The module-level state: numpy's generator, [predictor],
    [model_results], [X_test_global] and [y_test_global]. *)
Record World : Type := {
  np_random : RandomState;
  predictor : NoShowPredictor;
  model_results : list (string * ModelResult);
  X_test_global : option DataFrame;
  y_test_global : option series
}.

(** The state when the module has been imported. *)
Definition start (g : RandomState) : World :=
  {| np_random := g;
     predictor := new_predictor;
     model_results := [];
     X_test_global := None;
     y_test_global := None |}.

Definition with_preprocessor (p : NoShowPredictor) (pre : DataPreprocessor)
  : NoShowPredictor :=
  {| models := models p;
     best_model := best_model p;
     best_model_name := best_model_name p;
     preprocessor := pre |}.

(** [POST /train].  Every assignment is applied to the world at the
    point where the source makes it, so the world returned with an
    error is the one the exception leaves behind. *)
Definition train_model (w : World) : Response * World :=
  let '(df, g) := load_and_clean_data "synthetic_data.csv" (np_random w) in
  let w := {| np_random := g;
              predictor := predictor w;
              model_results := model_results w;
              X_test_global := X_test_global w;
              y_test_global := y_test_global w |} in
  match feature_engineering df with
  | Raise e => (JsonError (str e), w)
  | Ok df =>
      let '(r, pre) :=
        prepare_features (preprocessor (predictor w)) df true in
      let w := {| np_random := np_random w;
                  predictor := with_preprocessor (predictor w) pre;
                  model_results := model_results w;
                  X_test_global := X_test_global w;
                  y_test_global := y_test_global w |} in
      match r with
      | Raise e => (JsonError (str e), w)
      | Ok (X, y) =>
          match train_test_split X y 0.2 42 with
          | Raise e => (JsonError (str e), w)
          | Ok (X_train, X_test, y_train, y_test) =>
              let w := {| np_random := np_random w;
                          predictor := predictor w;
                          model_results := model_results w;
                          X_test_global := Some X_test;
                          y_test_global := Some y_test |} in
              let '(r, p) :=
                train_models (predictor w) X_train y_train X_test y_test in
              let w := {| np_random := np_random w;
                          predictor := p;
                          model_results := model_results w;
                          X_test_global := X_test_global w;
                          y_test_global := y_test_global w |} in
              match r with
              | Raise e => (JsonError (str e), w)
              | Ok results =>
                  let w := {| np_random := np_random w;
                              predictor := predictor w;
                              model_results := results;
                              X_test_global := X_test_global w;
                              y_test_global := y_test_global w |} in
                  match best_model_name p with
                  | None => (JsonError "None", w)
                  | Some name =>
                      match dict_get results name with
                      | None => (JsonError (str (KeyError [name])), w)
                      | Some res => (JsonTrained name (metrics res), w)
                      end
                  end
              end
          end
      end
  end.

(** [POST /predict]. *)
Definition predict (w : World) (request_json : gmap string value)
  : Response * World :=
  match best_model (predictor w) with
  | None => (JsonError "Model not trained yet", w)
  | Some _ =>
      let '(r, p) := predict_single (predictor w) request_json in
      (match r with
       | Raise e => JsonError (str e)
       | Ok result => JsonPrediction result
       end,
       {| np_random := np_random w;
          predictor := p;
          model_results := model_results w;
          X_test_global := X_test_global w;
          y_test_global := y_test_global w |})
  end.
End Routes.
End Routes.

(** ** Concrete libraries for the examples

    A small linear congruential generator for numpy's samplers, a
    [pd.to_datetime] that accepts datetimes only, and a scikit-learn whose
    fitted model is a constant probability. *)
Module Toy.
(** A console whose encoding is UTF-8: every text is written. *)
Definition utf8 : Stdout :=
  {| print := fun _ => Ok tt; print_ascii := fun _ _ => eq_refl |}.

Definition print_if_ascii (text : string) : Exc unit :=
  if is_ascii text then Ok tt
  else Raise (UnicodeEncodeError "'ascii' codec can't encode characters").

(** A console whose encoding is ASCII. *)
Program Definition ascii : Stdout := {| print := print_if_ascii |}.
Next Obligation.
intros text Htext. unfold print_if_ascii. rewrite Htext. reflexivity.
Qed.

Definition lcg (g : Z) : Z := (75 * g + 74) mod 65537.

Fixpoint draws (n : nat) (g : Z) : list Z * Z :=
  match n with
  | O => ([], g)
  | S n' => let g' := lcg g in
            let '(zs, g'') := draws n' g' in (g' :: zs, g'')
  end.

Definition sample {A : Type} (f : Z -> A) (size : Z) (g : Z) : list A * Z :=
  let '(zs, g') := draws (Z.to_nat size) g in (map f zs, g').

Definition pick {A : Type} (l : list A) (size : Z) (g : Z) : list A * Z :=
  let '(zs, g') := draws (Z.to_nat size) g in
  (omap (fun z => l !! Z.to_nat (z mod Z.of_nat (length l))) zs, g').

#[local] Instance numpy : NumpyRandom := {|
  RandomState := Z;
  np_random_seed := fun seed => seed;
  np_random_exponential := fun scale =>
    sample (fun z => scale * inject_Z (z mod 8) / 2)%Q;
  np_random_choice := fun A l _ => pick l;
  np_random_binomial := fun n p => sample (fun z => z mod 2);
  np_random_binomial_array := fun n ps => sample (fun z => z mod 2);
  np_random_randint := fun lo hi =>
    sample (fun z => lo + z mod (hi - lo));
  np_random_randint_scalar := fun lo hi g =>
    let g' := lcg g in (lo + g' mod (hi - lo), g')
|}.

#[local] Instance pandas : Pandas := {|
  to_datetime := mapE (fun v => match v with
                                | VDatetime d h => Ok (VDatetime d h)
                                | _ => Raise (ValueError "Unknown datetime format")
                                end)
|}.

Definition rows (X : DataFrame) : nat :=
  match X with [] => O | (_, s) :: _ => length s end.

(** The constant each estimator predicts once fitted; an estimator
    listed in [broken] raises in [fit]. *)
Definition constant_of (e : Estimator) : Q :=
  match e with
  | RandomForestClassifier _ _ _ _ _ _ => 0.7
  | GradientBoostingClassifier _ _ _ _ => 0.7
  | LogisticRegression _ _ _ _ => 0.2
  | SVC _ _ _ _ _ => 0.6
  end.

Definition is_svc (e : Estimator) : bool :=
  match e with SVC _ _ _ _ _ => true | _ => false end.

Definition clamp01 (p : Q) : Q :=
  if Qltb p 0 then 0 else if Qltb 1 p then 1 else p.

(** The first fifth of the rows is the test split. *)
Definition split (X : DataFrame) (y : option series)
  : Exc (DataFrame * DataFrame * series * series) :=
  match y with
  | None => Raise (TypeError "Singleton array cannot be a valid collection")
  | Some y =>
      let k := Nat.div (rows X) 5 in
      Ok (map (fun c => (fst c, drop k (snd c))) X,
          map (fun c => (fst c, take k (snd c))) X,
          drop k y, take k y)
  end.

Definition first_score (y_score : list Q) : Exc Q :=
  match y_score with
  | [] => Raise (ValueError "Only one class present in y_true")
  | p :: _ => Ok p
  end.

Program Definition sklearn (broken : Estimator -> bool) : Sklearn := {|
  Model := Q;
  train_test_split := fun X y test_size random_state => split X y;
  fit := fun e X y =>
    if broken e then Raise (ValueError "fit failed") else Ok (constant_of e);
  predict := fun m X =>
    Ok (replicate (rows X) (if Qltb 0.5 m then 1 else 0));
  predict_proba := fun m X => Ok (replicate (rows X) (clamp01 m));
  accuracy_score := fun y_true y_pred => Ok 0.8%Q;
  precision_score := fun y_true y_pred => Ok 0.5%Q;
  recall_score := fun y_true y_pred => Ok 0.5%Q;
  f1_score := fun y_true y_pred => Ok 0.5%Q;
  roc_auc_score := fun y_true y_score => first_score y_score
|}.
Next Obligation.
  intros _ m X ps Hps. injection Hps as <-.
  apply Forall_forall. intros p Hp.
  apply elem_of_replicate in Hp as [-> _].
  unfold clamp01, Qltb.
  destruct (Qle_bool 0 m) eqn:E0; simpl.
  - destruct (Qle_bool m 1) eqn:E1; simpl.
    + apply Qle_bool_iff in E0, E1. split; assumption.
    + split; [discriminate | apply Qle_refl].
  - split; [apply Qle_refl | discriminate].
Qed.

Definition all_fit : Estimator -> bool := fun _ => false.

(** The scenario record of the specification: age 10, no SMS, 40 days
    ahead, scholarship, no health flag. *)
Definition scenario : Form :=
  {| form_Age := 10; form_Gender := "F"; form_days_between := 40;
     form_SMS_received := 0; form_Scholarship := 1; form_Hipertension := 0;
     form_Diabetes := 0; form_Alcoholism := 0; form_Handcap := 0 |}.

(** The same record with a gender no training table contains. *)
Definition stranger : Form :=
  {| form_Age := 10; form_Gender := "X"; form_days_between := 40;
     form_SMS_received := 0; form_Scholarship := 1; form_Hipertension := 0;
     form_Diabetes := 0; form_Alcoholism := 0; form_Handcap := 0 |}.

(** A four-row engineered table, as [feature_engineering] returns them. *)
Definition table : DataFrame :=
  [("Age", [VInt 10; VInt 40; VInt 70; VInt 25]);
   ("Gender", [VStr "M"; VStr "F"; VStr "F"; VStr "M"]);
   ("Scholarship", [VInt 1; VInt 0; VInt 0; VInt 0]);
   ("Hipertension", [VInt 0; VInt 0; VInt 1; VInt 0]);
   ("Diabetes", [VInt 0; VInt 0; VInt 1; VInt 0]);
   ("Alcoholism", [VInt 0; VInt 0; VInt 0; VInt 0]);
   ("Handcap", [VInt 0; VInt 0; VInt 0; VInt 0]);
   ("SMS_received", [VInt 0; VInt 1; VInt 1; VInt 0]);
   ("days_between", [VInt 40; VInt 3; VInt 0; VInt 12]);
   ("scheduled_weekday", [VInt 1; VInt 2; VInt 3; VInt 4]);
   ("appointment_weekday", [VInt 1; VInt 5; VInt 3; VInt 6]);
   ("total_conditions", [VInt 0; VInt 0; VInt 2; VInt 0]);
   ("risk_score", [VFloat 1.2; VFloat 0.03; VFloat 0; VFloat 0.52]);
   ("is_weekend", [VInt 0; VInt 1; VInt 0; VInt 1]);
   ("No-show", [VInt 1; VInt 0; VInt 0; VInt 1])].

(** A preprocessor whose encoder has been fitted on [table]. *)
Definition fitted : DataPreprocessor :=
  snd (prepare_features {| label_encoders := ∅ |} table true).

(** The application right after import, with a scikit-learn whose SVC
    cannot be fitted. *)
Definition fresh : @Routes.World numpy (sklearn is_svc) :=
  @Routes.start numpy (sklearn is_svc) 7.

Definition some {A : Type} (o : option A) : bool :=
  match o with Some _ => true | None => false end.

(** A predictor that retains a model; its encoder is fitted or not. *)
Definition trained (pre : DataPreprocessor)
  : @NoShowPredictor (sklearn all_fit) :=
  @Build_NoShowPredictor (sklearn all_fit)
    [] (Some (0.7%Q : Q)) (Some "Random Forest") pre.
End Toy.

(** ** The numeric scenarios in IEEE binary64

    The same expressions as [risk_score] and [risk_level_of], on
    primitive binary64 floats with the literals rounded as Python rounds
    them. *)
Module Binary64.
#[local] Set Warnings "-inexact-float".

Definition b2f (b : bool) : float := if b then 1%float else 0%float.

(** An int64 as a float; exact on the small non-negative values used. *)
Definition z2f (z : Z) : float := PrimFloat.of_uint63 (Uint63.of_Z z).

Definition np_clip (x lo hi : float) : float :=
  let m := if PrimFloat.ltb x lo then lo else x in
  if PrimFloat.ltb hi m then hi else m.

Definition risk_score (Age SMS_received days_between Scholarship : Z) : float :=
  (b2f (Age <? 18)%Z * 0.3 +
   b2f (Age >? 80)%Z * 0.1 +
   z2f (1 - SMS_received)%Z * 0.4 +
   np_clip (z2f days_between / 30.0) 0 1 * 0.3 +
   z2f Scholarship * 0.2)%float.

Definition risk_level_of (probability : float) : string :=
  if PrimFloat.ltb 0.6%float probability then "High"
  else if PrimFloat.ltb 0.3%float probability then "Medium"
  else "Low".

(** The score of every combination of age class, 0/1 flags and
    days-between in the generator's range [0, 179] lies in [0, 1.2]. *)
Definition scores_in_range : bool :=
  forallb (fun age =>
    forallb (fun sms =>
      forallb (fun sch =>
        forallb (fun days =>
          let r := risk_score age sms (Z.of_nat days) sch in
          PrimFloat.leb 0%float r && PrimFloat.leb r 1.2%float)
          (seq 0 180))
        [0; 1])
      [0; 1])
    [10; 40; 90].
End Binary64.

(** ** Doubles and their exact values *)







(** ** Vocabulary of the statements *)

(** The frame [df[feature_cols]] when every feature column is present. *)
Definition selected (df : DataFrame) : DataFrame :=
  map (fun c => (c, default [] (df_lookup df c))) feature_cols.

(** The gender values the encoder takes in apply mode: any value while no
    encoder is stored, a label among the fitted classes afterwards. *)
Definition gender_accepted (pre : DataPreprocessor) (g : value) : Prop :=
  match label_encoders pre !! "Gender" with
  | None => True
  | Some le =>
      exists (classes : list string) (s : string) (i : Z),
        classes_ le = Some classes /\ g = VStr s /\ index_of s classes = Some i
  end.

(** The code the fallback mapping gives a single gender value. *)
Definition fallback_code (g : value) : value :=
  match g with
  | VStr "F" => VInt 0
  | VStr "M" => VInt 1
  | _ => VFloat 0
  end.

(** ** Feature importance, the performance route and the startup block *)

(** The attributes a fitted estimator may expose ([hasattr] is the
    [Some] case) and [sklearn.metrics.roc_curve], which returns the false
    positive rates, the true positive rates and the thresholds. *)
Class SklearnAttributes `{Sklearn} : Type := {
  feature_importances_ : Model -> option (list Q);
  coef_ : Model -> option (list (list Q));
  roc_curve : series -> list Q -> Exc (list Q * list Q * list Q)
}.

(** [pd.DataFrame({'feature': names, 'importance': importance})], as its
    list of rows. *)
Definition importance_frame (feature_names : list string) (importance : list Q)
  : Exc (list (string * Q)) :=
  if Nat.eqb (length feature_names) (length importance)
  then Ok (zip feature_names importance)
  else Raise (ValueError "All arrays must be of the same length").

Fixpoint insert_desc (row : string * Q) (rows : list (string * Q))
  : list (string * Q) :=
  match rows with
  | [] => [row]
  | r :: rows' =>
      if Qltb (snd r) (snd row) then row :: rows
      else r :: insert_desc row rows'
  end.

(** [df.sort_values('importance', ascending=False)].  pandas' default
    sort does not fix the order of rows with equal importance; this one
    keeps them in their original order. *)
Definition sort_values_desc (rows : list (string * Q)) : list (string * Q) :=
  foldr insert_desc [] rows.

Section Importance.
Context `{SklearnAttributes}.

Definition get_feature_importance (self : NoShowPredictor)
    (feature_names : list string) : Exc (option (list (string * Q))) :=
  match best_model self with
  | None => Ok None
  | Some best =>
      match feature_importances_ best with
      | Some importance =>
          df ← importance_frame feature_names importance;
          Ok (Some (sort_values_desc df))
      | None =>
          match coef_ best with
          | Some coef =>
              row ← first coef;
              let importance := map Qabs row in
              df ← importance_frame feature_names importance;
              Ok (Some (sort_values_desc df))
          | None => Ok None
          end
      end
  end.
End Importance.

(** The answer of [GET /model_performance]: the error object, or the
    metrics of the retained model with its name, the ROC curve (absent
    when no test labels are stored) and the top feature importances
    (absent when no test frame is stored or the model exposes none).  The
    constant layout fields of the plot traces are left out. *)
Inductive Performance : Type :=
| PerformanceError (error : string)
| PerformanceReport (m : Metrics) (best : option string)
    (roc : option (list Q * list Q))
    (importance : option (list (string * Q))).

(** The lines of the startup block that are not plain ASCII (source
    lines 774, 789, 795, 800 and 805). *)
Definition banner : string := "🏥 Medical Appointment No-Show Predictor".

Definition summary_header : string :=
  (newline ++ "📊 Model Performance Summary:")%string.

Definition best_line (best_model_name : option string) : string :=
  (newline ++ "🏆 Best model: " ++ default "None" best_model_name)%string.

Definition features_header : string :=
  (newline ++ "🔍 Top 5 Most Important Features:")%string.

Definition dashboard_line : string :=
  (newline ++ "🌐 Starting web dashboard...")%string.

Module Startup.
Section Startup.
Context `{NumpyRandom} `{Pandas} `{SklearnAttributes} `{Stdout}.

(** [model_results[predictor.best_model_name]]. *)
Definition best_result (w : Routes.World) : Exc ModelResult :=
  match best_model_name (Routes.predictor w) with
  | None => Raise (KeyError ["None"])
  | Some name =>
      match dict_get (Routes.model_results w) name with
      | Some r => Ok r
      | None => Raise (KeyError [name])
      end
  end.

Definition roc_curve_data (w : Routes.World) (r : ModelResult)
  : Exc (option (list Q * list Q)) :=
  match Routes.y_test_global w with
  | Some y_test =>
      curve ← roc_curve y_test (probabilities r);
      Ok (Some (fst (fst curve), snd (fst curve)))
  | None => Ok None
  end.

(** [importance_df.head(10)], when there is one. *)
Definition feature_importance_data (w : Routes.World)
  : Exc (option (list (string * Q))) :=
  match Routes.X_test_global w with
  | Some X_test =>
      importance_df ← get_feature_importance (Routes.predictor w) X_test.*1;
      Ok (option_map (take 10) importance_df)
  | None => Ok None
  end.

(** [GET /model_performance].  The route has no exception handler. *)
Definition model_performance (w : Routes.World) : Exc Performance :=
  match Routes.model_results w, best_model (Routes.predictor w) with
  | [], _ | _, None => Ok (PerformanceError "Model not trained yet")
  | _ :: _, Some _ =>
      r ← best_result w;
      roc ← roc_curve_data w r;
      importance ← feature_importance_data w;
      Ok (PerformanceReport (metrics r)
            (best_model_name (Routes.predictor w)) roc importance)
  end.

(** What the startup block does once training has returned: the summary,
    the winner, and the feature importances of the retained model over
    the columns of [X]. *)
Definition report (p : NoShowPredictor) (feature_names : list string)
  : Exc unit :=
  _ ← print summary_header;
  _ ← print (best_line (best_model_name p));
  importance_df ← get_feature_importance p feature_names;
  _ ← match importance_df with
      | Some _ => print features_header
      | None => Ok tt
      end;
  print dashboard_line.

(** The [__main__] block up to [app.run]: the banner, the same steps as
    the training route without its exception handler, then [report]. *)
Definition main (w : Routes.World) : Exc unit * Routes.World :=
  match print banner with
  | Raise e => (Raise e, w)
  | Ok _ =>
  let '(df, g) := load_and_clean_data "synthetic_data.csv" (Routes.np_random w) in
  let w := {| Routes.np_random := g;
              Routes.predictor := Routes.predictor w;
              Routes.model_results := Routes.model_results w;
              Routes.X_test_global := Routes.X_test_global w;
              Routes.y_test_global := Routes.y_test_global w |} in
  match feature_engineering df with
  | Raise e => (Raise e, w)
  | Ok df =>
      let '(r, pre) :=
        prepare_features (preprocessor (Routes.predictor w)) df true in
      let w := {| Routes.np_random := Routes.np_random w;
                  Routes.predictor :=
                    Routes.with_preprocessor (Routes.predictor w) pre;
                  Routes.model_results := Routes.model_results w;
                  Routes.X_test_global := Routes.X_test_global w;
                  Routes.y_test_global := Routes.y_test_global w |} in
      match r with
      | Raise e => (Raise e, w)
      | Ok (X, y) =>
          match train_test_split X y 0.2 42 with
          | Raise e => (Raise e, w)
          | Ok (X_train, X_test, y_train, y_test) =>
              let w := {| Routes.np_random := Routes.np_random w;
                          Routes.predictor := Routes.predictor w;
                          Routes.model_results := Routes.model_results w;
                          Routes.X_test_global := Some X_test;
                          Routes.y_test_global := Some y_test |} in
              let '(r, p) :=
                train_models (Routes.predictor w)
                  X_train y_train X_test y_test in
              let w := {| Routes.np_random := Routes.np_random w;
                          Routes.predictor := p;
                          Routes.model_results := Routes.model_results w;
                          Routes.X_test_global := Routes.X_test_global w;
                          Routes.y_test_global := Routes.y_test_global w |} in
              match r with
              | Raise e => (Raise e, w)
              | Ok results =>
                  let w := {| Routes.np_random := Routes.np_random w;
                              Routes.predictor := Routes.predictor w;
                              Routes.model_results := results;
                              Routes.X_test_global := Routes.X_test_global w;
                              Routes.y_test_global := Routes.y_test_global w |} in
                  (report (Routes.predictor w) X.*1, w)
              end
          end
      end
  end
  end.
End Startup.
End Startup.

(** ** More vocabulary *)

(** numpy returns as many samples as it is asked for. *)
Definition exponential_sized `{NumpyRandom} : Prop :=
  forall (scale : Q) (size : Z) (g : RandomState),
    length (fst (np_random_exponential scale size g)) = Z.to_nat size.

(** The module state is consistent: the module's results are the
    predictor's, and a retained model is the model of the entry the
    retained name points to. *)
Definition consistent `{NumpyRandom} `{Sklearn} (w : Routes.World) : Prop :=
  Routes.model_results w = models (Routes.predictor w) /\
  match best_model (Routes.predictor w) with
  | None => Routes.model_results w = [] /\
            best_model_name (Routes.predictor w) = None
  | Some m =>
      exists name r,
        best_model_name (Routes.predictor w) = Some name /\
        dict_get (Routes.model_results w) name = Some r /\
        model r = m
  end.

(** Rows in non-increasing order of importance. *)
Definition descending (rows : list (string * Q)) : Prop :=
  Sorted (fun a b => (snd b <= snd a)%Q) rows.

(** A scikit-learn whose models expose importances: the forests one
    importance per feature, the linear model one coefficient row. *)
Module ToyAttributes.
Definition importances (m : Q) : option (list Q) :=
  if Qltb 0.65 m
  then Some (map (fun k => (m / inject_Z k)%Q) (seqZ 1 14))
  else None.

Definition coefficients (m : Q) : option (list (list Q)) :=
  if Qltb m 0.5
  then Some [map (fun k => (m - inject_Z k / 10)%Q) (seqZ 1 14)]
  else None.

Definition attributes (broken : Estimator -> bool)
  : @SklearnAttributes (Toy.sklearn broken) :=
  @Build_SklearnAttributes (Toy.sklearn broken)
    importances coefficients
    (fun y_true y_score => Ok ([0%Q; 1%Q], [0%Q; 1%Q], [1%Q; 0%Q])).

End ToyAttributes.

(** The hour of a datetime value, as [s.dt.hour] lists it. *)
Definition hour_of (v : value) : value :=
  match v with VDatetime _ h => VInt h | _ => VNaN end.

(** The raw integer columns feature engineering reads. *)
Definition raw_int_cols : list string :=
  ["Age"; "Hipertension"; "Diabetes"; "Alcoholism"; "Handcap";
   "SMS_received"; "days_between"; "Scholarship"; "appointment_weekday"].

(** The columns feature engineering writes. *)
Definition engineered_cols : list string :=
  ["scheduled_hour"; "age_group"; "total_conditions"; "risk_score";
   "is_weekend"].

(** A column of datetime dtype, which [feature_engineering] leaves alone. *)
Definition datetime_column (df : DataFrame) (col : string) : Prop :=
  exists s, df_lookup df col = Some s /\ is_datetime64_any_dtype s = true.

Definition string_lt (a b : string) : Prop := String.ltb a b = true.

(** The table [load_and_clean_data] assembles from its columns. *)
Definition appointments_frame
    (patient_id appointment_id : list Z) (genders : list string)
    (ages : list Z) (neighbourhood : list string)
    (scholarship hipertension diabetes alcoholism handcap sms_received
     days_between scheduled_weekday appointment_weekday no_show : list Z)
    (scheduled : list (Z * Z)) : DataFrame :=
  [("PatientId", map VInt patient_id);
   ("AppointmentID", map VInt appointment_id);
   ("Gender", map VStr genders);
   ("Age", map VInt ages);
   ("Neighbourhood", map VStr neighbourhood);
   ("Scholarship", map VInt scholarship);
   ("Hipertension", map VInt hipertension);
   ("Diabetes", map VInt diabetes);
   ("Alcoholism", map VInt alcoholism);
   ("Handcap", map VInt handcap);
   ("SMS_received", map VInt sms_received);
   ("days_between", map VInt days_between);
   ("scheduled_weekday", map VInt scheduled_weekday);
   ("appointment_weekday", map VInt appointment_weekday);
   ("No-show", map VInt no_show);
   ("ScheduledDay", map (fun d => VDatetime (fst d) (snd d)) scheduled);
   ("AppointmentDay", zip_with add_days scheduled days_between)].

(** A four-row raw table, as the generator assembles them. *)
Module ToyTables.
Definition raw : DataFrame :=
  appointments_frame
    [1000001; 1000002; 1000003; 1000004]
    [5000001; 5000002; 5000003; 5000004]
    ["M"; "F"; "F"; "M"] [10; 40; 70; 0]
    ["JARDIM DA PENHA"; "MATA DA PRAIA"; "PONTAL DE CAMBURI"; "MATA DA PRAIA"]
    [1; 0; 0; 0] [0; 0; 1; 0] [0; 0; 1; 0] [0; 0; 0; 0] [0; 0; 0; 2]
    [0; 1; 1; 0] [40; 3; 0; 12] [1; 2; 3; 4] [1; 5; 3; 6] [1; 0; 0; 1]
    [(16900, 0); (16910, 0); (16920, 0); (16890, 0)].


(** The application right after import, with a scikit-learn that fits
    every estimator. *)
Definition fresh : @Routes.World Toy.numpy (Toy.sklearn Toy.all_fit) :=
  @Routes.start Toy.numpy (Toy.sklearn Toy.all_fit) 7.
End ToyTables.

(** * Properties *)

(** ** Arithmetic helpers *)

Lemma Qltb_lt (x y : Q) : Qltb x y = true <-> (x < y)%Q.
Proof.
  unfold Qltb. rewrite negb_true_iff. split.
  - intros E. apply Qnot_le_lt. intros Hle.
    apply Qle_bool_iff in Hle. congruence.
  - intros Hlt. destruct (Qle_bool y x) eqn:E; [|reflexivity].
    apply Qle_bool_iff in E. exfalso. exact (Qlt_not_le _ _ Hlt E).
Qed.

Lemma Qltb_ge (x y : Q) : Qltb x y = false <-> (y <= x)%Q.
Proof.
  unfold Qltb. rewrite negb_false_iff. apply Qle_bool_iff.
Qed.

Lemma np_clip_unit_nonneg (x : Q) : (0 <= x)%Q -> (np_clip x 0 1 == Qmin x 1)%Q.
Proof.
  intros Hx. unfold np_clip.
  destruct (Qltb x 0) eqn:E0.
  - apply Qltb_lt in E0. exfalso. exact (Qlt_not_le _ _ E0 Hx).
  - destruct (Qltb 1 x) eqn:E1.
    + apply Qltb_lt in E1. symmetry. apply Q.min_r. apply Qlt_le_weak, E1.
    + apply Qltb_ge in E1. symmetry. apply Q.min_l, E1.
Qed.

Lemma np_clip_unit_range (x : Q) : (0 <= np_clip x 0 1 /\ np_clip x 0 1 <= 1)%Q.
Proof.
  unfold np_clip.
  destruct (Qltb x 0) eqn:E0.
  - replace (Qltb 1 0) with false by reflexivity. split; discriminate.
  - apply Qltb_ge in E0. destruct (Qltb 1 x) eqn:E1.
    + split; [discriminate | apply Qle_refl].
    + apply Qltb_ge in E1. split; assumption.
Qed.

Lemma days_fraction_nonneg (days : Z) :
  0 <= days -> (0 <= inject_Z days / 30.0)%Q.
Proof.
  intros Hd. apply Qle_shift_div_l; [reflexivity|].
  rewrite Qmult_0_l. change 0%Q with (inject_Z 0). rewrite <- Zle_Qle. exact Hd.
Qed.

(** ** Age buckets *)

(** What [pd.cut] computes for the age column: bins closed on the right,
    and no bucket at all for age 0 and below or above 100. *)
Lemma age_group_right_closed (age : Z) :
  age_group age =
    if (0 <? age) && (age <=? 18) then Some "child"
    else if (18 <? age) && (age <=? 35) then Some "young_adult"
    else if (35 <? age) && (age <=? 50) then Some "adult"
    else if (50 <? age) && (age <=? 65) then Some "middle_aged"
    else if (65 <? age) && (age <=? 100) then Some "senior"
    else None.
Proof.
  unfold age_group, pd_cut, age_bins, age_labels, searchsorted_left.
  repeat match goal with
         | |- context [?a <? ?b] => destruct (Z.ltb_spec a b)
         | |- context [?a <=? ?b] => destruct (Z.leb_spec a b)
         end; simpl; try reflexivity; lia.
Qed.

(** C1.  On the ages the generator produces, the bucket computed by the
    code differs from the half-open bins of the specification at age 0
    (no bucket), at 18 (child) and at 65 (middle_aged). *)
Theorem age_group_boundaries :
  age_group 0 = None /\ spec_age_group 0 = Some "child" /\
  age_group 18 = Some "child" /\ spec_age_group 18 = Some "young_adult" /\
  age_group 65 = Some "middle_aged" /\ spec_age_group 65 = Some "senior" /\
  age_group 17 = spec_age_group 17 /\ age_group 19 = spec_age_group 19.
Proof. repeat split. Qed.

(** ** Risk score *)

(** Outside the record invariant: a negative days-between is clipped to 0
    and adds nothing to the score. *)
Lemma risk_score_negative_days (age sms days sch : Z) :
  days < 0 ->
  (risk_score age sms days sch == risk_score age sms 0 sch)%Q.
Proof.
  intros Hd. unfold risk_score.
  assert (Hc : (np_clip (inject_Z days / 30.0) 0 1 == 0)%Q).
  { unfold np_clip.
    assert (Hneg : (inject_Z days / 30.0 < 0)%Q).
    { apply Qlt_shift_div_r; [reflexivity|]. rewrite Qmult_0_l.
      change 0%Q with (inject_Z 0). rewrite <- Zlt_Qlt. exact Hd. }
    apply Qltb_lt in Hneg. rewrite Hneg. reflexivity. }
  assert (H0 : (np_clip (inject_Z 0 / 30.0) 0 1 == 0)%Q) by reflexivity.
  rewrite Hc, H0. reflexivity.
Qed.

(** C10.  With 0/1 flags and a non-negative days-between, the two age
    terms exclude each other, every term is non-negative, and the score
    lies between 0 and 1.2. *)
Theorem risk_score_range (age sms days sch : Z) :
  (sms = 0 \/ sms = 1) -> (sch = 0 \/ sch = 1) -> 0 <= days ->
  ((age <? 18) && (age >? 80) = false) /\
  (0 <= inject_Z (b2z (age <? 18)) * 0.3)%Q /\
  (0 <= inject_Z (b2z (age >? 80)) * 0.1)%Q /\
  (0 <= inject_Z (1 - sms) * 0.4)%Q /\
  (0 <= np_clip (inject_Z days / 30.0) 0 1 * 0.3)%Q /\
  (0 <= inject_Z sch * 0.2)%Q /\
  (0 <= risk_score age sms days sch)%Q /\
  (risk_score age sms days sch <= 1.2)%Q.
Proof.
  intros Hsms Hsch Hd.
  pose proof (np_clip_unit_range (inject_Z days / 30.0)) as [Hc0 Hc1].
  assert (Hex : (age <? 18) && (age >? 80) = false).
  { destruct (Z.ltb_spec age 18); [|reflexivity].
    simpl. rewrite Z.gtb_ltb. apply Z.ltb_ge. lia. }
  unfold risk_score.
  set (c := np_clip (inject_Z days / 30.0) 0 1) in *.
  destruct (age <? 18), (age >? 80); try discriminate Hex;
    destruct Hsms as [-> | ->], Hsch as [-> | ->]; simpl b2z;
    try change (1 - 0) with 1; try change (1 - 1) with 0;
    change (inject_Z 1) with 1%Q; change (inject_Z 0) with 0%Q;
    repeat split; lra.
Qed.

Lemma risk_score_range_witness :
  (0 <= risk_score 10 0 40 1 /\ risk_score 10 0 40 1 <= 1.2)%Q.
Proof.
  pose proof (risk_score_range 10 0 40 1
                (or_introl eq_refl) (or_intror eq_refl) ltac:(lia)) as R.
  split; apply R.
Defined.

(** ** Risk tiers *)

Lemma risk_level_of_cases (p : Q) :
  (risk_level_of p = "High" <-> (0.6 < p)%Q) /\
  (risk_level_of p = "Medium" <-> (0.3 < p /\ p <= 0.6)%Q) /\
  (risk_level_of p = "Low" <-> (p <= 0.3)%Q).
Proof.
  unfold risk_level_of.
  destruct (Qltb 0.6 p) eqn:E6; destruct (Qltb 0.3 p) eqn:E3;
    try apply Qltb_lt in E6; try apply Qltb_ge in E6;
    try apply Qltb_lt in E3; try apply Qltb_ge in E3;
    repeat split; intros; try discriminate; try lra;
    try (exfalso; lra).
  all: match goal with
       | H : (_ /\ _)%type |- _ => destruct H; exfalso; lra
       end.
Qed.

Section PredictorFacts.
Context `{Sklearn}.

Lemma predict_single_result (self self' : NoShowPredictor)
    (data : gmap string value) (out : Prediction) :
  predict_single self data = (Ok out, self') ->
  risk_level out = risk_level_of (no_show_probability out).
Proof.
  unfold predict_single. intros E.
  destruct (best_model self) as [best|]; [|discriminate].
  destruct (prepare_features _ _ _) as [r pre].
  destruct r as [[X y]|e]; [|discriminate].
  unfold mbind, Exc_bind in E.
  destruct (predict_proba best X) as [ps|]; [|discriminate].
  destruct (first ps) as [p|]; [|discriminate].
  destruct (predict best X) as [ds|]; [|discriminate].
  destruct (first ds) as [d|]; [|discriminate].
  injection E as <- _. reflexivity.
Qed.

(** C6.  The tier returned with a prediction is High exactly above 0.6,
    Medium exactly above 0.3 and up to 0.6, Low exactly up to 0.3; the four
    boundary probabilities fall as listed. *)
Theorem risk_level_tiers (self self' : NoShowPredictor)
    (data : gmap string value) (out : Prediction) :
  predict_single self data = (Ok out, self') ->
  (risk_level out = "High" <-> (0.6 < no_show_probability out)%Q) /\
  (risk_level out = "Medium" <->
     (0.3 < no_show_probability out /\ no_show_probability out <= 0.6)%Q) /\
  (risk_level out = "Low" <-> (no_show_probability out <= 0.3)%Q) /\
  risk_level_of 0.30 = "Low" /\ risk_level_of 0.30001 = "Medium" /\
  risk_level_of 0.60 = "Medium" /\ risk_level_of 0.60001 = "High".
Proof.
  intros E. rewrite (predict_single_result _ _ _ _ E).
  pose proof (risk_level_of_cases (no_show_probability out)) as (Hh & Hm & Hl).
  split; [exact Hh|]. split; [exact Hm|]. split; [exact Hl|].
  repeat split.
Qed.

(** ** Prediction before training *)

End PredictorFacts.

(** The [/predict] route answers the same way, before it calls the
    predictor. *)
Lemma predict_route_untrained `{NumpyRandom} `{Sklearn}
    (w : Routes.World) (request_json : gmap string value) :
  best_model (Routes.predictor w) = None ->
  Routes.predict w request_json = (JsonError "Model not trained yet", w).
Proof.
  intros E. unfold Routes.predict. rewrite E. reflexivity.
Qed.

Lemma risk_level_tiers_witness :
  let out := {| no_show_probability := 0.7; prediction := 1;
               risk_level := "High" |} in
  predict_single (Toy.trained {| label_encoders := ∅ |}) (dashboard Toy.scenario)
    = (Ok out, Toy.trained {| label_encoders := ∅ |}) /\
  (risk_level out = "High" <-> (0.6 < no_show_probability out)%Q).
Proof.
  assert (E : predict_single (Toy.trained {| label_encoders := ∅ |})
                (dashboard Toy.scenario)
              = (Ok {| no_show_probability := 0.7; prediction := 1;
                       risk_level := "High" |},
                 Toy.trained {| label_encoders := ∅ |}))
    by (vm_compute; reflexivity).
  split; [exact E | exact (proj1 (risk_level_tiers _ _ _ _ E))].
Defined.


(** ** Model selection *)

(** [max_from] returns the first maximal item: everything before it is
    strictly smaller, everything after it is no larger. *)
Lemma max_from_split {A : Type} (key : A -> Q) (l : list A) :
  forall (pre : list A) (b : A) (mid : list A),
    (forall x, x ∈ pre -> (key x < key b)%Q) ->
    (forall x, x ∈ mid -> (key x <= key b)%Q) ->
    exists pre' post',
      pre ++ b :: mid ++ l = pre' ++ max_from key b l :: post' /\
      (forall x, x ∈ pre' -> (key x < key (max_from key b l))%Q) /\
      (forall x, x ∈ post' -> (key x <= key (max_from key b l))%Q).
Proof.
  induction l as [|x l IH]; intros pre b mid Hpre Hmid; simpl.
  - exists pre, mid. rewrite app_nil_r. auto.
  - destruct (Qltb (key b) (key x)) eqn:E.
    + apply Qltb_lt in E.
      destruct (IH (pre ++ b :: mid) x []) as (pre' & post' & Heq & Hlt & Hle).
      * intros y Hy. apply elem_of_app in Hy as [Hy | Hy].
        -- eapply Qlt_trans; [apply Hpre, Hy | exact E].
        -- apply elem_of_cons in Hy as [-> | Hy]; [exact E|].
           eapply Qle_lt_trans; [apply Hmid, Hy | exact E].
      * intros y Hy. inversion Hy.
      * exists pre', post'. split; [|auto].
        rewrite <- Heq. simpl. rewrite <- app_assoc. reflexivity.
    + apply Qltb_ge in E.
      destruct (IH pre b (mid ++ [x])) as (pre' & post' & Heq & Hlt & Hle).
      * exact Hpre.
      * intros y Hy. apply elem_of_app in Hy as [Hy | Hy]; [apply Hmid, Hy|].
        apply list_elem_of_singleton in Hy as ->. exact E.
      * exists pre', post'. split; [|auto].
        rewrite <- Heq. rewrite <- app_assoc. reflexivity.
Qed.

Lemma py_max_first_max {A : Type} (key : A -> Q) (l : list A) (r : A) :
  py_max key l = Ok r ->
  exists pre post,
    l = pre ++ r :: post /\
    (forall x, x ∈ pre -> (key x < key r)%Q) /\
    (forall x, x ∈ post -> (key x <= key r)%Q).
Proof.
  destruct l as [|b l]; [discriminate|]. simpl. intros [= <-].
  destruct (max_from_split key l [] b []) as (pre & post & Heq & Hlt & Hle).
  - intros x Hx. inversion Hx.
  - intros x Hx. inversion Hx.
  - exists pre, post. auto.
Qed.

Lemma dict_set_fresh {V : Type} (d : list (string * V)) (k : string) (v : V) :
  k ∉ d.*1 -> dict_set d k v = d ++ [(k, v)].
Proof.
  induction d as [|[k' v'] d IH]; simpl; intros Hk; [reflexivity|].
  apply not_elem_of_cons in Hk as [Hne Hk].
  destruct (String.eqb_spec k' k) as [->|_]; [congruence|].
  rewrite IH by exact Hk. reflexivity.
Qed.

Lemma dict_get_NoDup {V : Type} (d : list (string * V)) (k : string) (v : V) :
  NoDup d.*1 -> (k, v) ∈ d -> dict_get d k = Some v.
Proof.
  induction d as [|[k' v'] d IH]; simpl; intros Hnd Hin; [inversion Hin|].
  apply NoDup_cons in Hnd as [Hk' Hnd].
  apply elem_of_cons in Hin as [[= -> ->] | Hin].
  - rewrite String.eqb_refl. reflexivity.
  - destruct (String.eqb_spec k' k) as [->|_]; [|auto].
    exfalso. apply Hk'. apply list_elem_of_fmap. exists (k, v). auto.
Qed.

Section SelectionFacts.
Context `{Sklearn} `{Stdout}.

(** What one pass of the loop body has computed when it returns. *)
Lemma evaluate_inv (estimator : Estimator)
    (X_train : DataFrame) (y_train : series)
    (X_test : DataFrame) (y_test : series) (r : ModelResult) :
  evaluate estimator X_train y_train X_test y_test = Ok r ->
  fit estimator X_train y_train = Ok (model r) /\
  predict (model r) X_test = Ok (predictions r) /\
  predict_proba (model r) X_test = Ok (probabilities r) /\
  roc_auc_score y_test (probabilities r) = Ok (roc_auc (metrics r)).
Proof.
  unfold evaluate, mbind, Exc_bind. intros E.
  destruct (fit estimator X_train y_train) as [m|]; [|discriminate].
  destruct (predict m X_test) as [y_pred|] eqn:Epred; [|discriminate].
  destruct (predict_proba m X_test) as [y_pred_proba|] eqn:Eproba;
    [|discriminate].
  destruct (accuracy_score y_test y_pred); [|discriminate].
  destruct (precision_score y_test y_pred); [|discriminate].
  destruct (recall_score y_test y_pred); [|discriminate].
  destruct (f1_score y_test y_pred); [|discriminate].
  destruct (roc_auc_score y_test y_pred_proba) as [auc|] eqn:Eauc;
    [|discriminate].
  injection E as <-. simpl. auto.
Qed.

(** The loop files, under the name of each menu item and in menu order,
    what the loop body computed for its estimator. *)
Lemma evaluate_all_entries (todo : list (string * Estimator)) :
  forall (results results' : list (string * ModelResult))
         (X_train : DataFrame) (y_train : series)
         (X_test : DataFrame) (y_test : series),
    NoDup (results.*1 ++ todo.*1) ->
    evaluate_all todo results X_train y_train X_test y_test = Ok results' ->
    exists new,
      results' = results ++ new /\
      Forall2 (fun entry res =>
                 fst res = fst entry /\
                 evaluate (snd entry) X_train y_train X_test y_test
                   = Ok (snd res))
              todo new.
Proof.
  induction todo as [|[name est] todo IH];
    intros results results' X_train y_train X_test y_test Hnd E; simpl in *.
  - injection E as <-. exists []. rewrite app_nil_r. split; constructor.
  - unfold mbind, Exc_bind in E.
    destruct (evaluate est X_train y_train X_test y_test) as [r|] eqn:Er;
      [|discriminate].
    assert (Hfresh : name ∉ results.*1).
    { apply NoDup_app in Hnd as (_ & Hdisj & _). intros Hin.
      apply (Hdisj name Hin). left. }
    rewrite (dict_set_fresh _ _ _ Hfresh) in E.
    apply IH in E as (new & -> & Hnew).
    + exists ((name, r) :: new). rewrite <- app_assoc. split; [reflexivity|].
      constructor; [split; [reflexivity | exact Er] | exact Hnew].
    + rewrite fmap_app. simpl. rewrite <- app_assoc. exact Hnd.
Qed.

(** The loop adds one entry per menu item, in menu order. *)
Lemma evaluate_all_keys (todo : list (string * Estimator)) :
  forall (results results' : list (string * ModelResult))
         (X_train : DataFrame) (y_train : series)
         (X_test : DataFrame) (y_test : series),
    NoDup (results.*1 ++ todo.*1) ->
    evaluate_all todo results X_train y_train X_test y_test = Ok results' ->
    results'.*1 = results.*1 ++ todo.*1.
Proof.
  induction todo as [|[name est] todo IH];
    intros results results' X_train y_train X_test y_test Hnd E; simpl in *.
  - injection E as <-. rewrite app_nil_r. reflexivity.
  - unfold mbind, Exc_bind in E.
    destruct (evaluate est X_train y_train X_test y_test) as [r|];
      [|discriminate].
    assert (Hfresh : name ∉ results.*1).
    { apply NoDup_app in Hnd as (_ & Hdisj & _). intros Hin.
      apply (Hdisj name Hin). left. }
    rewrite (dict_set_fresh _ _ _ Hfresh) in E.
    apply IH in E.
    + rewrite E, fmap_app. simpl. rewrite <- app_assoc. reflexivity.
    + rewrite fmap_app. simpl. rewrite <- app_assoc. exact Hnd.
Qed.

Lemma menu_NoDup : NoDup menu.*1.
Proof. apply (bool_decide_unpack _). vm_compute. exact I. Qed.

(** What a successful [train_models] leaves behind. *)
Lemma train_models_ok (self self' : NoShowPredictor)
    (X_train : DataFrame) (y_train : series)
    (X_test : DataFrame) (y_test : series)
    (results : list (string * ModelResult)) :
  train_models self X_train y_train X_test y_test = (Ok results, self') ->
  results.*1 = menu.*1 /\
  models self' = results /\
  preprocessor self' = preprocessor self /\
  exists (i : nat) (name : string) (r : ModelResult),
    results !! i = Some (name, r) /\
    dict_get results name = Some r /\
    best_model_name self' = Some name /\
    best_model self' = Some (model r) /\
    (forall j n' r', results !! j = Some (n', r') ->
                     (roc_auc (metrics r') <= roc_auc (metrics r))%Q) /\
    (forall j n' r', (j < i)%nat -> results !! j = Some (n', r') ->
                     (roc_auc (metrics r') < roc_auc (metrics r))%Q).
Proof.
  unfold train_models. intros E. unfold mbind, Exc_bind in E.
  destruct (evaluate_all menu [] X_train y_train X_test y_test)
    as [res|] eqn:Eall; [|discriminate].
  destruct (py_max (auc_of res) res.*1) as [name|] eqn:Emax; [|discriminate].
  destruct (dict_get res name) as [r|] eqn:Eget; [|discriminate].
  destruct (print (winner_line name)) as [[]|]; [|discriminate].
  injection E as <- <-. simpl.
  apply evaluate_all_keys in Eall; [|exact menu_NoDup]. simpl in Eall.
  assert (Hnd : NoDup res.*1) by (rewrite Eall; exact menu_NoDup).
  assert (Hkey : forall j n' r', res !! j = Some (n', r') ->
                                 auc_of res n' = roc_auc (metrics r')).
  { intros j n' r' Hj. unfold auc_of.
    rewrite (dict_get_NoDup res n' r' Hnd); [reflexivity|].
    eapply list_elem_of_lookup_2, Hj. }
  apply py_max_first_max in Emax as (pre & post & Hsplit & Hlt & Hle).
  assert (Hi : res.*1 !! length pre = Some name).
  { rewrite Hsplit. rewrite lookup_app_r by lia.
    rewrite Nat.sub_diag. reflexivity. }
  rewrite list_lookup_fmap in Hi.
  destruct (res !! length pre) as [[n0 r0]|] eqn:Ei;
    simpl in Hi; [|discriminate Hi].
  injection Hi as ->.
  assert (r0 = r) as ->.
  { pose proof (dict_get_NoDup res name r0 Hnd
                  (list_elem_of_lookup_2 _ _ _ Ei)) as E'. congruence. }
  assert (Hr : auc_of res name = roc_auc (metrics r)) by (eapply Hkey, Ei).
  repeat split; try reflexivity; try exact Eall.
  exists (length pre), name, r. repeat split; try assumption.
  - intros j n' r' Hj. rewrite <- Hr, <- (Hkey j n' r' Hj).
    assert (Hn : res.*1 !! j = Some n')
      by (rewrite list_lookup_fmap, Hj; reflexivity).
    apply list_elem_of_lookup_2 in Hn. rewrite Hsplit in Hn.
    apply elem_of_app in Hn as [Hn | Hn].
    + apply Qlt_le_weak, Hlt, Hn.
    + apply elem_of_cons in Hn as [-> | Hn]; [apply Qle_refl | apply Hle, Hn].
  - intros j n' r' Hlt' Hj. rewrite <- Hr, <- (Hkey j n' r' Hj).
    assert (Hn : res.*1 !! j = Some n')
      by (rewrite list_lookup_fmap, Hj; reflexivity).
    rewrite Hsplit, lookup_app_l in Hn by exact Hlt'.
    apply Hlt. eapply list_elem_of_lookup_2, Hn.
Qed.

(** C5.  After a successful run every entry of the results is, under
    the name of its menu item and in menu order, the estimator of that
    item fitted on the training split, with the probabilities the fitted
    model predicts on the test frame and the ROC-AUC of those
    probabilities against the test labels; the retained model is the one
    of the first entry, in menu order, whose ROC-AUC is maximal: no entry
    has a higher ROC-AUC and every earlier entry has a strictly lower
    one.  The winner is a function of the per-algorithm results. *)
Theorem best_model_first_max (self self' : NoShowPredictor)
    (X_train : DataFrame) (y_train : series)
    (X_test : DataFrame) (y_test : series)
    (results : list (string * ModelResult)) :
  train_models self X_train y_train X_test y_test = (Ok results, self') ->
  results.*1 = menu.*1 /\
  Forall2 (fun entry res =>
             fst res = fst entry /\
             fit (snd entry) X_train y_train = Ok (model (snd res)) /\
             predict_proba (model (snd res)) X_test
               = Ok (probabilities (snd res)) /\
             roc_auc_score y_test (probabilities (snd res))
               = Ok (roc_auc (metrics (snd res))))
          menu results /\
  exists (i : nat) (name : string) (r : ModelResult),
    results !! i = Some (name, r) /\
    best_model_name self' = Some name /\
    best_model self' = Some (model r) /\
    py_max (auc_of results) results.*1 = Ok name /\
    (forall j n' r', results !! j = Some (n', r') ->
                     (roc_auc (metrics r') <= roc_auc (metrics r))%Q) /\
    (forall j n' r', (j < i)%nat -> results !! j = Some (n', r') ->
                     (roc_auc (metrics r') < roc_auc (metrics r))%Q).
Proof.
  intros E.
  destruct (train_models_ok _ _ _ _ _ _ _ E)
    as (Hkeys & _ & _ & i & name & r & Hi & _ & Hname & Hbest & Hmax & Hfirst).
  split; [exact Hkeys|].
  unfold train_models in E. unfold mbind, Exc_bind in E.
  destruct (evaluate_all menu [] X_train y_train X_test y_test)
    as [res|] eqn:Eall; [|discriminate].
  destruct (py_max (auc_of res) res.*1) as [name'|] eqn:Emax; [|discriminate].
  destruct (dict_get res name') as [r'|]; [|discriminate].
  destruct (print (winner_line name')) as [[]|]; [|discriminate].
  injection E as <- <-. simpl in Hname. split.
  - apply evaluate_all_entries in Eall as (new & -> & Hnew);
      [|exact menu_NoDup].
    simpl. eapply Forall2_impl; [exact Hnew|].
    intros entry res0 [Hfst Hev]. split; [exact Hfst|].
    apply evaluate_inv in Hev as (Hfit & _ & Hproba & Hauc). auto.
  - exists i, name, r. repeat split; try assumption. congruence.
Qed.
End SelectionFacts.

Lemma best_model_first_max_witness :
  let sk := Toy.sklearn Toy.all_fit in
  let run := @train_models sk Toy.utf8 new_predictor Toy.table [VInt 1; VInt 0]
               Toy.table [VInt 1; VInt 0] in
  exists results,
    run = (Ok results, snd run) /\
    results.*1 = menu.*1 /\
    best_model_name (snd run) = Some "Random Forest" /\
    (auc_of results "Random Forest" == auc_of results "Gradient Boosting")%Q.
Proof.
  intros sk run. subst run.
  destruct (@train_models sk Toy.utf8 new_predictor Toy.table [VInt 1; VInt 0]
              Toy.table [VInt 1; VInt 0]) as [[results|e] self'] eqn:E.
  - exists results. split; [reflexivity|].
    split; [exact (proj1 (@best_model_first_max sk _ _ _ _ _ _ _ _ E))|].
    revert E. vm_compute. intros [= <- <-]. split; reflexivity.
  - exfalso. revert E. vm_compute. discriminate.
Defined.

(** ** Feature encoding of a single record *)

Lemma df_lookup_rows (l : list (string * value)) (c : string) :
  df_lookup (map (fun kv => (fst kv, [snd kv])) l) c
  = (fun v => [v]) <$> ((list_to_map l : gmap string value) !! c).
Proof.
  induction l as [|[k v] l IH]; simpl.
  - rewrite lookup_empty. reflexivity.
  - destruct (String.eqb_spec k c) as [->|Hne].
    + rewrite lookup_insert_eq. reflexivity.
    + rewrite lookup_insert_ne by exact Hne. exact IH.
Qed.

Lemma df_lookup_single_row (data : gmap string value) (c : string) :
  df_lookup (single_row data) c = (fun v => [v]) <$> (data !! c).
Proof.
  unfold single_row. rewrite df_lookup_rows, list_to_map_to_list. reflexivity.
Qed.

Lemma select_all (df : DataFrame) (cols : list string) :
  (forall c, c ∈ cols -> is_Some (df_lookup df c)) ->
  select df cols = Ok (map (fun c => (c, default [] (df_lookup df c))) cols).
Proof.
  intros Hall. unfold select.
  assert (Hf : List.filter (fun c => negb (has_column df c)) cols = []).
  { clear -Hall. induction cols as [|c cols IH]; [reflexivity|]. simpl.
    destruct (Hall c) as [s Hs]; [left|].
    unfold has_column at 1. rewrite Hs. simpl. apply IH.
    intros c' Hc'. apply Hall. right. exact Hc'. }
  rewrite Hf. clear Hf.
  induction cols as [|c cols IH]; [reflexivity|].
  destruct (Hall c) as [s Hs]; [left|].
  cbn [mapE map]. rewrite IH by (intros c' Hc'; apply Hall; right; exact Hc').
  unfold getitem. rewrite Hs. reflexivity.
Qed.

Lemma select_missing (df : DataFrame) (cols : list string) (c : string) :
  c ∈ cols -> df_lookup df c = None ->
  exists missing, c ∈ missing /\ select df cols = Raise (KeyError missing).
Proof.
  intros Hc Hnone. unfold select.
  assert (Hin : c ∈ List.filter (fun c => negb (has_column df c)) cols).
  { apply list_elem_of_In, filter_In. split; [apply list_elem_of_In, Hc|].
    unfold has_column. rewrite Hnone. reflexivity. }
  destruct (List.filter _ cols) as [|m ms] eqn:E; [inversion Hin|].
  exists (m :: ms). split; [exact Hin | reflexivity].
Qed.

Lemma setitem_keys (df : DataFrame) (col : string) (s : series) :
  is_Some (df_lookup df col) -> (setitem df col s).*1 = df.*1.
Proof.
  induction df as [|[c s'] df IH]; simpl; intros [x Hx]; [discriminate|].
  destruct (String.eqb c col); [reflexivity|].
  simpl. f_equal. apply IH. eauto.
Qed.

Lemma df_lookup_setitem (df : DataFrame) (col : string) (s : series) :
  df_lookup (setitem df col s) col = Some s.
Proof.
  induction df as [|[c s'] df IH]; simpl.
  - rewrite String.eqb_refl. reflexivity.
  - destruct (String.eqb c col) eqn:E; simpl; rewrite E;
      [reflexivity | exact IH].
Qed.

(** [prepare_features] in apply mode, on a frame that has every feature
    column: the feature columns in order, with the gender column replaced
    by what the stored encoder, or else the fallback mapping, gives. *)
Lemma prepare_features_apply (self : DataPreprocessor) (df : DataFrame)
    (gender : series) :
  (forall c, c ∈ feature_cols -> is_Some (df_lookup df c)) ->
  df_lookup df "Gender" = Some gender ->
  prepare_features self df false =
    (match (match label_encoders self !! "Gender" with
            | Some le => LabelEncoder_transform le gender
            | None => Ok (map_fillna gender)
            end) with
     | Ok codes => Ok (setitem (selected df) "Gender" codes,
                       df_lookup df "No-show")
     | Raise e => Raise e
     end, self).
Proof.
  intros Hall Hg. unfold prepare_features.
  rewrite (select_all df feature_cols Hall). fold (selected df).
  assert (Hget : getitem (selected df) "Gender" = Ok gender).
  { unfold selected, getitem. simpl. rewrite Hg. reflexivity. }
  rewrite Hget. unfold mbind, Exc_bind.
  assert (Hy : (if has_column df "No-show" then df_lookup df "No-show" else None)
               = df_lookup df "No-show").
  { unfold has_column. destruct (df_lookup df "No-show"); reflexivity. }
  rewrite Hy.
  destruct (label_encoders self !! "Gender") as [le|].
  - destruct (LabelEncoder_transform le gender); reflexivity.
  - reflexivity.
Qed.

Lemma selected_keys (df : DataFrame) (codes : series) :
  (setitem (selected df) "Gender" codes).*1 = feature_cols.
Proof. reflexivity. Qed.

Lemma map_fillna_single (g : value) : map_fillna [g] = [fallback_code g].
Proof.
  destruct g as [z|q|s| |]; try reflexivity.
  unfold map_fillna, fallback_code. simpl.
  destruct s as [|a s']; [reflexivity|].
  destruct a as [[] [] [] [] [] [] [] []]; destruct s'; reflexivity.
Qed.

Lemma transform_single (le : LabelEncoder) (classes : list string)
    (s : string) :
  classes_ le = Some classes ->
  LabelEncoder_transform le [VStr s] =
    match index_of s classes with
    | Some i => Ok [VInt i]
    | None => Raise unseen
    end.
Proof.
  intros E. unfold LabelEncoder_transform. rewrite E. simpl.
  destruct (index_of s classes); reflexivity.
Qed.

Lemma single_row_columns (data : gmap string value) :
  (forall c, c ∈ feature_cols -> is_Some (data !! c)) ->
  forall c, c ∈ feature_cols -> is_Some (df_lookup (single_row data) c).
Proof.
  intros Hall c Hc. rewrite df_lookup_single_row.
  destruct (Hall c Hc) as [v ->]. eexists. reflexivity.
Qed.

Lemma dashboard_columns (f : Form) :
  forall c, c ∈ feature_cols -> is_Some (dashboard f !! c).
Proof.
  intros c Hc. unfold feature_cols in Hc.
  repeat (apply elem_of_cons in Hc as [-> | Hc]);
    try (vm_compute; eexists; reflexivity).
  inversion Hc.
Qed.

Section EncodingFacts.
Context `{Sklearn}.

Lemma predict_single_encoded (p : NoShowPredictor) (best : Model)
    (data : gmap string value) (X : DataFrame) (y : option series)
    (pr : Q) (ps : list Q) (d : Z) (ds : list Z) :
  best_model p = Some best ->
  prepare_features (preprocessor p) (single_row data) false
    = (Ok (X, y), preprocessor p) ->
  predict_proba best X = Ok (pr :: ps) ->
  predict best X = Ok (d :: ds) ->
  predict_single p data
    = (Ok {| no_show_probability := pr; prediction := d;
             risk_level := risk_level_of pr |}, p) /\
  (0 <= pr /\ pr <= 1)%Q.
Proof.
  intros Hbest Hprep Hproba Hpred. split.
  - unfold predict_single. rewrite Hbest, Hprep.
    unfold mbind, Exc_bind. rewrite Hproba, Hpred. simpl.
    rewrite <- Hbest. destruct p; reflexivity.
  - apply predict_proba_range in Hproba.
    apply Forall_cons in Hproba as [Hpr _]. exact Hpr.
Qed.

Lemma predict_single_missing (p : NoShowPredictor) (best : Model)
    (data : gmap string value) (c : string) :
  best_model p = Some best -> c ∈ feature_cols -> data !! c = None ->
  exists missing,
    c ∈ missing /\ predict_single p data = (Raise (KeyError missing), p).
Proof.
  intros Hbest Hc Hnone.
  destruct (select_missing (single_row data) feature_cols c Hc)
    as (missing & Hin & Hsel).
  { rewrite df_lookup_single_row, Hnone. reflexivity. }
  exists missing. split; [exact Hin|].
  unfold predict_single, prepare_features. rewrite Hbest, Hsel.
  rewrite <- Hbest. destruct p; reflexivity.
Qed.

(** C2 as the code has it.  In apply mode, on a record with every feature
    column: while no encoder is stored, any gender value is encoded
    without an exception, F as 0, M as 1 and every other value as the
    fallback code 0, and the single-record predictor goes on to predict;
    once an encoder is stored, a label seen during fit gets its learned
    code and an unseen label raises the encoder's unseen-label error. *)
Theorem encoder_apply_mode (self : DataPreprocessor)
    (data : gmap string value) (g : value) :
  (forall c, c ∈ feature_cols -> is_Some (data !! c)) ->
  data !! "Gender" = Some g ->
  (label_encoders self !! "Gender" = None ->
   exists X y,
     prepare_features self (single_row data) false = (Ok (X, y), self) /\
     df_lookup X "Gender" = Some [fallback_code g] /\
     forall (p : NoShowPredictor) (best : Model) pr ps d ds,
       preprocessor p = self -> best_model p = Some best ->
       predict_proba best X = Ok (pr :: ps) ->
       predict best X = Ok (d :: ds) ->
       predict_single p data
         = (Ok {| no_show_probability := pr; prediction := d;
                  risk_level := risk_level_of pr |}, p)) /\
  (forall le classes s,
      label_encoders self !! "Gender" = Some le ->
      classes_ le = Some classes -> g = VStr s ->
      match index_of s classes with
      | Some i =>
          exists X y,
            prepare_features self (single_row data) false = (Ok (X, y), self) /\
            df_lookup X "Gender" = Some [VInt i]
      | None =>
          prepare_features self (single_row data) false = (Raise unseen, self)
      end).
Proof.
  intros Hall Hg.
  pose proof (prepare_features_apply self (single_row data) [g]
                (single_row_columns data Hall)) as Hprep.
  rewrite df_lookup_single_row, Hg in Hprep. specialize (Hprep eq_refl).
  split.
  - intros Hnone. rewrite Hnone, map_fillna_single in Hprep.
    eexists _, _. split; [exact Hprep|]. split; [apply df_lookup_setitem|].
    intros p best pr ps d ds <- Hbest Hproba Hpred.
    exact (proj1 (predict_single_encoded p best data _ _ pr ps d ds
                    Hbest Hprep Hproba Hpred)).
  - intros le classes s Hle Hcl ->.
    rewrite Hle, (transform_single le classes s Hcl) in Hprep.
    destruct (index_of s classes) as [i|]; [|exact Hprep].
    eexists _, _. split; [exact Hprep | apply df_lookup_setitem].
Qed.

(** C3 as the code has it.  With a retained model, a record that carries
    all fourteen feature columns, the engineered ones included, and a
    gender the encoder accepts is encoded in apply mode, and whenever the
    model predicts on the encoded row the predictor returns the model's
    probability, which lies in [0,1], its decision and one of the three
    risk labels.  No engineered field is derived on the way: a record that
    lacks a feature column raises a missing-column error, and the
    dashboard's record is one that carries them all. *)
Theorem predict_single_full_record (p : NoShowPredictor) (best : Model)
    (data : gmap string value) (g : value) :
  best_model p = Some best ->
  (forall c, c ∈ feature_cols -> is_Some (data !! c)) ->
  data !! "Gender" = Some g ->
  gender_accepted (preprocessor p) g ->
  (exists X y,
     prepare_features (preprocessor p) (single_row data) false
       = (Ok (X, y), preprocessor p) /\
     X.*1 = feature_cols /\
     forall pr ps d ds,
       predict_proba best X = Ok (pr :: ps) ->
       predict best X = Ok (d :: ds) ->
       predict_single p data
         = (Ok {| no_show_probability := pr; prediction := d;
                  risk_level := risk_level_of pr |}, p) /\
       (0 <= pr /\ pr <= 1)%Q /\
       risk_level_of pr ∈ ["High"; "Medium"; "Low"]) /\
  (forall (data' : gmap string value) (c : string),
     c ∈ feature_cols -> data' !! c = None ->
     exists missing,
       c ∈ missing /\ predict_single p data' = (Raise (KeyError missing), p)) /\
  (forall f : Form, forall c, c ∈ feature_cols -> is_Some (dashboard f !! c)).
Proof.
  intros Hbest Hall Hg Hacc.
  split; [|split; [intros data' c; apply (predict_single_missing p best data' c Hbest)
                  | exact dashboard_columns]].
  pose proof (prepare_features_apply (preprocessor p) (single_row data) [g]
                (single_row_columns data Hall)) as Hprep.
  rewrite df_lookup_single_row, Hg in Hprep. specialize (Hprep eq_refl).
  assert (Hcodes : exists codes,
             (match label_encoders (preprocessor p) !! "Gender" with
              | Some le => LabelEncoder_transform le [g]
              | None => Ok (map_fillna [g])
              end) = Ok codes).
  { unfold gender_accepted in Hacc.
    destruct (label_encoders (preprocessor p) !! "Gender") as [le|].
    - destruct Hacc as (classes & s & i & Hcl & -> & Hi).
      rewrite (transform_single le classes s Hcl), Hi. eauto.
    - eauto. }
  destruct Hcodes as [codes Hcodes]. rewrite Hcodes in Hprep.
  eexists _, _. split; [exact Hprep|]. split; [apply selected_keys|].
  intros pr ps d ds Hproba Hpred.
  destruct (predict_single_encoded p best data _ _ pr ps d ds
              Hbest Hprep Hproba Hpred) as [Hout Hrange].
  split; [exact Hout|]. split; [exact Hrange|].
  unfold risk_level_of.
  rewrite !elem_of_cons.
  destruct (Qltb 0.6 pr); [auto|]. destruct (Qltb 0.3 pr); auto.
Qed.
End EncodingFacts.

(** C2 as the specification words it fails: with an encoder fitted on a
    table with genders F and M, a record of gender X raises the
    unseen-label error in apply mode, and so does the single-record
    prediction. *)
Lemma encoder_raises_on_unseen :
  label_encoders Toy.fitted !! "Gender"
    = Some {| classes_ := Some ["F"; "M"] |} /\
  dashboard Toy.stranger !! "Gender" = Some (VStr "X") /\
  fst (prepare_features Toy.fitted (single_row (dashboard Toy.stranger)) false)
    = Raise unseen /\
  fst (predict_single (Toy.trained Toy.fitted) (dashboard Toy.stranger))
    = Raise unseen.
Proof. repeat split; vm_compute; reflexivity. Qed.

Lemma encoder_apply_mode_witness :
  let unfitted := {| label_encoders := ∅ |} in
  dashboard Toy.stranger !! "Gender" = Some (VStr "X") /\
  label_encoders unfitted !! "Gender" = None /\
  exists X y,
    prepare_features unfitted (single_row (dashboard Toy.stranger)) false
      = (Ok (X, y), unfitted) /\
    df_lookup X "Gender" = Some [VFloat 0].
Proof.
  intros unfitted.
  assert (Hg : dashboard Toy.stranger !! "Gender" = Some (VStr "X"))
    by (vm_compute; reflexivity).
  split; [exact Hg|]. split; [reflexivity|].
  destruct (proj1 (@encoder_apply_mode (Toy.sklearn Toy.all_fit) unfitted
                     (dashboard Toy.stranger) (VStr "X")
                     (dashboard_columns Toy.stranger) Hg) eq_refl)
    as (X & y & Hprep & Hcode & _).
  exists X, y. split; [exact Hprep | exact Hcode].
Defined.

(** C3 as the specification words it fails: a record with the raw fields
    only is rejected for its missing engineered columns. *)
Lemma raw_record_rejected :
  best_model (Toy.trained {| label_encoders := ∅ |}) = Some (0.7%Q : Q) /\
  predict_single (Toy.trained {| label_encoders := ∅ |}) (raw_record Toy.scenario)
    = (Raise (KeyError ["total_conditions"; "risk_score"; "is_weekend"]),
       Toy.trained {| label_encoders := ∅ |}).
Proof. split; vm_compute; reflexivity. Qed.

Lemma predict_single_full_record_witness :
  let p := Toy.trained {| label_encoders := ∅ |} in
  best_model p = Some (0.7%Q : Q) /\
  dashboard Toy.scenario !! "Gender" = Some (VStr "F") /\
  gender_accepted (preprocessor p) (VStr "F") /\
  exists X y,
    prepare_features (preprocessor p) (single_row (dashboard Toy.scenario)) false
      = (Ok (X, y), preprocessor p) /\
    X.*1 = feature_cols.
Proof.
  intros p.
  assert (Hg : dashboard Toy.scenario !! "Gender" = Some (VStr "F"))
    by (vm_compute; reflexivity).
  assert (Hacc : gender_accepted (preprocessor p) (VStr "F")) by exact I.
  split; [reflexivity|]. split; [exact Hg|]. split; [exact Hacc|].
  destruct (proj1 (@predict_single_full_record (Toy.sklearn Toy.all_fit) p
                     (0.7%Q : Q) (dashboard Toy.scenario) (VStr "F")
                     eq_refl (dashboard_columns Toy.scenario) Hg Hacc))
    as (X & y & Hprep & Hkeys & _).
  exists X, y. split; [exact Hprep | exact Hkeys].
Defined.

(** ** Training runs *)

Section TrainingFacts.
Context `{NumpyRandom} `{Pandas} `{Sklearn} `{Stdout}.

(** A raising [train_models] either has left the predictor alone, or has
    evaluated the whole menu, assigned the three attributes and failed to
    announce the winner. *)
Lemma train_models_raise (self self' : NoShowPredictor)
    (X_train : DataFrame) (y_train : series)
    (X_test : DataFrame) (y_test : series) (e : exn) :
  train_models self X_train y_train X_test y_test = (Raise e, self') ->
  self' = self \/
  exists results name r,
    evaluate_all menu [] X_train y_train X_test y_test = Ok results /\
    py_max (auc_of results) results.*1 = Ok name /\
    dict_get results name = Some r /\
    print (winner_line name) = Raise e /\
    self' = {| models := results;
               best_model := Some (model r);
               best_model_name := Some name;
               preprocessor := preprocessor self |}.
Proof.
  unfold train_models, mbind, Exc_bind.
  destruct (evaluate_all menu [] X_train y_train X_test y_test)
    as [results|e'] eqn:Eall.
  - destruct (py_max (auc_of results) results.*1) as [name|e'] eqn:Emax.
    + destruct (dict_get results name) as [r|] eqn:Eget.
      * destruct (print (winner_line name)) as [[]|e'] eqn:Eprint;
          [discriminate|].
        intros [= <- <-]. right. exists results, name, r. auto.
      * intros [= _ <-]. left. reflexivity.
    + intros [= _ <-]. left. reflexivity.
  - intros [= _ <-]. left. reflexivity.
Qed.

(** C4 as the code has it.  After a [POST /train] that ends in an error
    the module's per-algorithm results are exactly as they were, and so
    are the retained best model, its name and the predictor's results,
    unless the whole menu had been evaluated and the failure is that of
    the winner's announcement; a request that succeeds replaces them
    together by the results of the whole menu. *)
Theorem failed_training_keeps_models (w : Routes.World) :
  let resp := fst (Routes.train_model w) in
  let w' := snd (Routes.train_model w) in
  (is_error resp = true ->
   Routes.model_results w' = Routes.model_results w /\
   ((best_model (Routes.predictor w') = best_model (Routes.predictor w) /\
     best_model_name (Routes.predictor w')
       = best_model_name (Routes.predictor w) /\
     models (Routes.predictor w') = models (Routes.predictor w)) \/
    (exists X_train y_train X_test y_test results name e,
       Routes.X_test_global w' = Some X_test /\
       Routes.y_test_global w' = Some y_test /\
       evaluate_all menu [] X_train y_train X_test y_test = Ok results /\
       py_max (auc_of results) results.*1 = Ok name /\
       print (winner_line name) = Raise e /\
       resp = JsonError (str e)))) /\
  (is_error resp = false ->
   exists results name r,
     results.*1 = menu.*1 /\
     models (Routes.predictor w') = results /\
     Routes.model_results w' = results /\
     best_model_name (Routes.predictor w') = Some name /\
     dict_get results name = Some r /\
     best_model (Routes.predictor w') = Some (model r) /\
     resp = JsonTrained name (metrics r)).
Proof.
  unfold Routes.train_model.
  destruct (load_and_clean_data "synthetic_data.csv" (Routes.np_random w))
    as [df g]. simpl.
  destruct (feature_engineering df) as [df'|e]; simpl;
    [|split; [intros _; split; [reflexivity | left; auto] | discriminate]].
  destruct (prepare_features _ df' true) as [[[X y]|e] pre]; simpl;
    [|split; [intros _; split; [reflexivity | left; auto] | discriminate]].
  destruct (train_test_split X y 0.2 42)
    as [[[[X_train X_test] y_train] y_test]|e]; simpl;
    [|split; [intros _; split; [reflexivity | left; auto] | discriminate]].
  destruct (train_models _ X_train y_train X_test y_test)
    as [[results|e] p] eqn:E; simpl.
  - destruct (train_models_ok _ _ _ _ _ _ _ E)
      as (Hkeys & Hmodels & _ & i & name & r & _ & Hget & Hname & Hbest & _).
    rewrite Hname, Hget. simpl. split; [discriminate|]. intros _.
    exists results, name, r. repeat split; assumption.
  - split; [|discriminate]. intros _. split; [reflexivity|].
    apply train_models_raise in E
      as [-> | (results & name & r & Hall & Hmax & _ & Hprint & _)].
    + left. auto.
    + right. exists X_train, y_train, X_test, y_test, results, name, e.
      split; [reflexivity|]. split; [reflexivity|].
      split; [exact Hall|]. split; [exact Hmax|].
      split; [exact Hprint | reflexivity].
Qed.
End TrainingFacts.

(** What a [POST /train] on [Toy.fresh] answers and leaves behind. *)
Local Abbreviation failed_run :=
  (@Routes.train_model Toy.numpy Toy.pandas (Toy.sklearn Toy.is_svc) Toy.utf8
     Toy.fresh).

Lemma failed_run_summary :
  is_error (fst failed_run)
  && Toy.some (Routes.X_test_global (snd failed_run))
  && Toy.some (Routes.y_test_global (snd failed_run)) = true.
Proof. vm_compute. reflexivity. Qed.

(** C4 as the specification words it fails: the first training request
    of a fresh application ends in an error, and the held-out test data,
    absent before, is set afterwards. *)
Lemma failed_training_overwrites_test_data :
  is_error (fst failed_run) = true /\
  Routes.X_test_global Toy.fresh = None /\
  Routes.y_test_global Toy.fresh = None /\
  Routes.X_test_global (snd failed_run) <> Routes.X_test_global Toy.fresh /\
  Routes.y_test_global (snd failed_run) <> Routes.y_test_global Toy.fresh.
Proof.
  pose proof failed_run_summary as S.
  apply andb_true_iff in S as [S Sy]. apply andb_true_iff in S as [Se Sx].
  split; [exact Se|]. split; [reflexivity|]. split; [reflexivity|].
  change (Routes.X_test_global Toy.fresh) with (@None DataFrame).
  change (Routes.y_test_global Toy.fresh) with (@None series).
  split.
  - destruct (Routes.X_test_global (snd failed_run)); [discriminate|].
    discriminate Sx.
  - destruct (Routes.y_test_global (snd failed_run)); [discriminate|].
    discriminate Sy.
Qed.

Lemma failed_training_keeps_models_witness :
  is_error (fst failed_run) = true /\
  best_model (Routes.predictor (snd failed_run)) = None /\
  Routes.model_results (snd failed_run) = [].
Proof.
  pose proof failed_run_summary as S.
  apply andb_true_iff in S as [S _]. apply andb_true_iff in S as [Se _].
  split; [exact Se|].
  destruct (proj1 (@failed_training_keeps_models
                     Toy.numpy Toy.pandas (Toy.sklearn Toy.is_svc) Toy.utf8
                     Toy.fresh) Se)
    as (Hres & [(Hbest & _) | (? & ? & ? & ? & ? & ? & ? & Hcase)]).
  - split; [exact Hbest | exact Hres].
  - exfalso. destruct Hcase as (_ & _ & _ & _ & Hprint & _).
    discriminate Hprint.
Defined.

(** ** The generator *)

(** C9.  The table depends on the seed and the record count alone: the
    generator is reseeded on entry, so neither the state in which the
    global generator is found nor the file path has any influence.  The
    state the generator is left in is determined in the same way. *)
Theorem generator_deterministic `{NumpyRandom}
    (seed n_samples : Z) (filepath1 filepath2 : string)
    (g1 g2 : RandomState) :
  synthetic_data seed n_samples g1 = synthetic_data seed n_samples g2 /\
  load_and_clean_data filepath1 g1 = load_and_clean_data filepath2 g2 /\
  load_and_clean_data filepath1 g1 = synthetic_data 42 10000 g1.
Proof. repeat split. Qed.

(** ** The numeric scenarios in binary64 *)

#[local] Set Warnings "-inexact-float".


Lemma binary64_scores_in_range : Binary64.scores_in_range = true.
Proof. vm_compute. reflexivity. Qed.

Lemma binary64_tiers :
  Binary64.risk_level_of 0.30%float = "Low" /\
  Binary64.risk_level_of 0.30001%float = "Medium" /\
  Binary64.risk_level_of 0.60%float = "Medium" /\
  Binary64.risk_level_of 0.60001%float = "High".
Proof. repeat split. Qed.

(** ** Feature engineering on a table *)

Lemma df_lookup_setitem_ne (df : DataFrame) (col c : string) (s : series) :
  col <> c -> df_lookup (setitem df col s) c = df_lookup df c.
Proof.
  intros Hne. induction df as [|[k s'] df IH]; simpl.
  - destruct (String.eqb_spec col c); [contradiction | reflexivity].
  - destruct (String.eqb_spec k col) as [->|Hk]; simpl.
    + destruct (String.eqb_spec col c); [contradiction | reflexivity].
    + destruct (String.eqb k c); [reflexivity | exact IH].
Qed.

Lemma int_column_setitem_ne (df : DataFrame) (col c : string) (s : series) :
  col <> c -> int_column (setitem df col s) c = int_column df c.
Proof.
  intros Hne. unfold int_column, getitem.
  rewrite (df_lookup_setitem_ne df col c s Hne). reflexivity.
Qed.

Section FeatureEngineeringFacts.
Context `{Pandas}.

Lemma ensure_datetime_other (df df' : DataFrame) (col c : string) :
  ensure_datetime df col = Ok df' -> col <> c ->
  int_column df' c = int_column df c.
Proof.
  unfold ensure_datetime, mbind, Exc_bind. intros E Hne.
  destruct (getitem df col) as [s|]; [|discriminate].
  destruct (is_datetime64_any_dtype s); simpl in E.
  - injection E as <-. reflexivity.
  - destruct (to_datetime s) as [s'|]; [|discriminate].
    injection E as <-. apply int_column_setitem_ne, Hne.
Qed.



(** The engineered columns of the table are the row functions
    [age_group] and [risk_score] applied down the raw columns. *)
Lemma feature_engineering_columns (df df' : DataFrame) :
  feature_engineering df = Ok df' ->
  exists Age SMS_received days_between Scholarship,
    int_column df "Age" = Ok Age /\
    int_column df "SMS_received" = Ok SMS_received /\
    int_column df "days_between" = Ok days_between /\
    int_column df "Scholarship" = Ok Scholarship /\
    df_lookup df' "age_group"
      = Some (map (fun a => categorical (age_group a)) Age) /\
    df_lookup df' "risk_score"
      = Some (map VFloat
                (map4 risk_score Age SMS_received days_between Scholarship)).
Proof.
  unfold feature_engineering. intros E. unfold mbind, Exc_bind in E.
  destruct (ensure_datetime df "ScheduledDay") as [df1|] eqn:E1;
    [|discriminate].
  destruct (ensure_datetime df1 "AppointmentDay") as [df2|] eqn:E2;
    [|discriminate].
  assert (Hraw : forall c, c <> "ScheduledDay" -> c <> "AppointmentDay" ->
                           int_column df2 c = int_column df c).
  { intros c Hs Ha.
    rewrite (ensure_datetime_other df1 df2 _ c E2) by congruence.
    apply (ensure_datetime_other df df1 _ c E1). congruence. }
  match type of E with
  | match ?m with Ok _ => _ | Raise _ => _ end = _ =>
      destruct m as [df3|] eqn:E3; [|discriminate]
  end.
  assert (Hraw3 : forall c, c <> "ScheduledDay" -> c <> "AppointmentDay" ->
                            c <> "scheduled_hour" ->
                            int_column df3 c = int_column df c).
  { intros c Hs Ha Hh. rewrite <- (Hraw c Hs Ha).
    destruct (has_column df2 "scheduled_hour"); simpl in E3.
    - injection E3 as <-. reflexivity.
    - destruct (getitem df2 "ScheduledDay") as [s|]; [|discriminate].
      destruct (dt_hour s) as [h|]; [|discriminate].
      injection E3 as <-. apply int_column_setitem_ne. congruence. }
  clear E1 E2 E3 Hraw.
  destruct (int_column df3 "Age") as [Age|] eqn:EAge; [|discriminate].
  repeat match type of E with
         | match ?m with Ok _ => _ | Raise _ => _ end = _ =>
             let x := fresh "col" in
             let Ex := fresh "Ecol" in
             destruct m as [x|] eqn:Ex; [|discriminate]
         end.
  injection E as <-.
  rewrite !int_column_setitem_ne in * by discriminate.
  rewrite Hraw3 in * by discriminate.
  assert (col3 = Age) as -> by congruence.
  exists Age, col4, col5, col6.
  repeat split; try assumption.
  - rewrite !df_lookup_setitem_ne by discriminate. apply df_lookup_setitem.
  - rewrite !df_lookup_setitem_ne by discriminate. apply df_lookup_setitem.
Qed.
End FeatureEngineeringFacts.




(** ** Reproducible training *)

Lemma prepare_features_fit_result (self1 self2 : DataPreprocessor)
    (df : DataFrame) :
  fst (prepare_features self1 df true) = fst (prepare_features self2 df true).
Proof.
  unfold prepare_features.
  destruct (select df feature_cols) as [X|e]; [|reflexivity].
  destruct (g ← getitem X "Gender"; le ← LabelEncoder_fit g;
            codes ← LabelEncoder_transform le g; Ok (le, codes))
    as [[le codes]|e]; reflexivity.
Qed.

Section ReproducibleTraining.
Context `{NumpyRandom} `{Pandas} `{Sklearn} `{Stdout}.

Lemma train_models_result (self1 self2 : NoShowPredictor)
    (X_train : DataFrame) (y_train : series)
    (X_test : DataFrame) (y_test : series) :
  let run1 := train_models self1 X_train y_train X_test y_test in
  let run2 := train_models self2 X_train y_train X_test y_test in
  fst run1 = fst run2 /\
  (is_Ok (fst run1) = true ->
   models (snd run1) = models (snd run2) /\
   best_model (snd run1) = best_model (snd run2) /\
   best_model_name (snd run1) = best_model_name (snd run2)).
Proof.
  unfold train_models.
  destruct (_ ← evaluate_all menu [] X_train y_train X_test y_test; _)
    as [[results name]|e]; simpl.
  - destruct (dict_get results name); simpl.
    + destruct (print (winner_line name)) as [[]|]; simpl;
        [auto | split; [reflexivity | discriminate]].
    + split; [reflexivity | discriminate].
  - split; [reflexivity | discriminate].
Qed.

(** Two training requests answer alike and, when they succeed, retain the
    same models, whatever the application state they start from: the data
    is regenerated from the fixed seed and the encoder is refitted. *)
Lemma train_model_reproducible (w1 w2 : Routes.World) :
  let run1 := Routes.train_model w1 in
  let run2 := Routes.train_model w2 in
  fst run1 = fst run2 /\
  (is_error (fst run1) = false ->
   Routes.model_results (snd run1) = Routes.model_results (snd run2) /\
   best_model (Routes.predictor (snd run1))
     = best_model (Routes.predictor (snd run2)) /\
   best_model_name (Routes.predictor (snd run1))
     = best_model_name (Routes.predictor (snd run2)) /\
   Routes.X_test_global (snd run1) = Routes.X_test_global (snd run2)).
Proof.
  unfold Routes.train_model.
  assert (Hgen : load_and_clean_data "synthetic_data.csv" (Routes.np_random w1)
                 = load_and_clean_data "synthetic_data.csv" (Routes.np_random w2))
    by reflexivity.
  rewrite Hgen.
  destruct (load_and_clean_data "synthetic_data.csv" (Routes.np_random w2))
    as [df g]. simpl.
  destruct (feature_engineering df) as [df'|e]; simpl;
    [|split; [reflexivity | discriminate]].
  pose proof (prepare_features_fit_result
                (preprocessor (Routes.predictor w1))
                (preprocessor (Routes.predictor w2)) df') as Hprep.
  destruct (prepare_features (preprocessor (Routes.predictor w1)) df' true)
    as [r1 pre1].
  destruct (prepare_features (preprocessor (Routes.predictor w2)) df' true)
    as [r2 pre2].
  simpl in Hprep. subst r2.
  destruct r1 as [[X y]|e]; simpl; [|split; [reflexivity | discriminate]].
  destruct (train_test_split X y 0.2 42)
    as [[[[X_train X_test] y_train] y_test]|e]; simpl;
    [|split; [reflexivity | discriminate]].
  pose proof (train_models_result
                (Routes.with_preprocessor (Routes.predictor w1) pre1)
                (Routes.with_preprocessor (Routes.predictor w2) pre2)
                X_train y_train X_test y_test) as [Hres Hset].
  cbv zeta in Hres, Hset.
  destruct (train_models (Routes.with_preprocessor (Routes.predictor w1) pre1)
              X_train y_train X_test y_test) as [r1 p1].
  destruct (train_models (Routes.with_preprocessor (Routes.predictor w2) pre2)
              X_train y_train X_test y_test) as [r2 p2].
  simpl in Hres, Hset. subst r2.
  destruct r1 as [results|e]; simpl; [|split; [reflexivity | discriminate]].
  destruct (Hset eq_refl) as (_ & Hbest & Hname).
  rewrite <- Hname.
  destruct (best_model_name p1) as [name|] eqn:En; simpl;
    [|split; [reflexivity | discriminate]].
  destruct (dict_get results name); simpl;
    [|split; [reflexivity | discriminate]].
  split; [reflexivity|]. intros _.
  repeat split; [exact Hbest | congruence].
Qed.
End ReproducibleTraining.

(** * Further properties of the code *)

(** ** The risk score as a function of its inputs *)




(** ** The dashboard's calculated fields *)

(** The record the dashboard posts carries, for a non-negative
    days-between, the values feature engineering would compute from the
    same raw fields with appointment weekday 1: the same condition count,
    the same risk score and the same weekend flag. *)
Theorem dashboard_matches_feature_engineering (f : Form) :
  0 <= form_days_between f ->
  dashboard f !! "total_conditions"
    = Some (VInt (total_conditions (form_Hipertension f) (form_Diabetes f)
                    (form_Alcoholism f) (form_Handcap f))) /\
  (exists q,
     dashboard f !! "risk_score" = Some (VFloat q) /\
     (q == risk_score (form_Age f) (form_SMS_received f)
             (form_days_between f) (form_Scholarship f))%Q) /\
  dashboard f !! "appointment_weekday" = Some (VInt 1) /\
  dashboard f !! "is_weekend" = Some (VInt (is_weekend 1)).
Proof.
  intros Hd. unfold dashboard. cbv zeta.
  split; [|split; [|split]].
  - rewrite !lookup_insert_ne by discriminate. rewrite lookup_insert_eq.
    unfold total_conditions, b2z. reflexivity.
  - eexists. split.
    + rewrite !lookup_insert_ne by discriminate. rewrite lookup_insert_eq.
      reflexivity.
    + unfold risk_score.
      rewrite (np_clip_unit_nonneg _ (days_fraction_nonneg _ Hd)).
      destruct (form_Age f <? 18), (form_Age f >? 80); simpl b2z;
        change (inject_Z 1) with 1%Q; change (inject_Z 0) with 0%Q; lra.
  - rewrite !lookup_insert_ne by discriminate. apply lookup_insert_eq.
  - apply lookup_insert_eq.
Qed.

Lemma dashboard_matches_feature_engineering_witness :
  dashboard Toy.scenario !! "is_weekend" = Some (VInt 0).
Proof.
  apply (dashboard_matches_feature_engineering Toy.scenario). simpl. lia.
Defined.

(** ** The feature encoder on any table *)

Lemma select_inv (df : DataFrame) (cols : list string) (X : DataFrame) :
  select df cols = Ok X ->
  X = map (fun c => (c, default [] (df_lookup df c))) cols /\
  forall c, c ∈ cols -> is_Some (df_lookup df c).
Proof.
  unfold select.
  destruct (List.filter (fun c => negb (has_column df c)) cols) eqn:Ef;
    [|discriminate].
  assert (Hall : forall c, c ∈ cols -> is_Some (df_lookup df c)).
  { intros c Hc. destruct (df_lookup df c) as [s|] eqn:Ec; [eauto|].
    exfalso.
    assert (Hin : In c (List.filter (fun c => negb (has_column df c)) cols)).
    { apply filter_In. split; [apply list_elem_of_In, Hc|].
      unfold has_column. rewrite Ec. reflexivity. }
    rewrite Ef in Hin. exact Hin. }
  intros E. split; [|exact Hall].
  pose proof (select_all df cols Hall) as E'. unfold select in E'.
  rewrite Ef in E'. congruence.
Qed.

(** Whatever the mode, a successful [prepare_features] returns the
    fourteen feature columns in their fixed order, every column but the
    gender one exactly as it is in the table, and the label column of the
    table when there is one. *)
Theorem prepare_features_columns (self self' : DataPreprocessor)
    (df X : DataFrame) (y : option series) (fit_encoders : bool) :
  prepare_features self df fit_encoders = (Ok (X, y), self') ->
  X.*1 = feature_cols /\
  y = df_lookup df "No-show" /\
  forall c, c ∈ feature_cols -> c <> "Gender" ->
            df_lookup X c = df_lookup df c /\ is_Some (df_lookup df c).
Proof.
  unfold prepare_features. intros E.
  destruct (select df feature_cols) as [X0|] eqn:Esel; [|discriminate].
  apply select_inv in Esel as [-> Hall]. fold (selected df) in E.
  assert (Hy : (if has_column df "No-show" then df_lookup df "No-show" else None)
               = df_lookup df "No-show").
  { unfold has_column. destruct (df_lookup df "No-show"); reflexivity. }
  rewrite Hy in E. clear Hy.
  assert (HX : exists codes, X = setitem (selected df) "Gender" codes /\
                             y = df_lookup df "No-show").
  { destruct fit_encoders.
    - destruct (g ← getitem (selected df) "Gender"; le ← LabelEncoder_fit g;
                codes ← LabelEncoder_transform le g; Ok (le, codes))
        as [[le codes]|]; [|discriminate].
      injection E as <- <- _. eauto.
    - destruct (label_encoders self !! "Gender") as [le|].
      + unfold mbind, Exc_bind in E.
        destruct (getitem (selected df) "Gender") as [g|]; [|discriminate].
        destruct (LabelEncoder_transform le g) as [codes|]; [|discriminate].
        injection E as <- <- _. eauto.
      + unfold mbind, Exc_bind in E.
        destruct (getitem (selected df) "Gender") as [g|]; [|discriminate].
        injection E as <- <- _. eauto. }
  destruct HX as (codes & -> & ->).
  split; [apply selected_keys|]. split; [reflexivity|].
  intros c Hc Hne. split; [|apply Hall, Hc].
  rewrite df_lookup_setitem_ne by congruence.
  destruct (Hall c Hc) as [s Hs]. rewrite Hs.
  unfold feature_cols in Hc.
  repeat (apply elem_of_cons in Hc as [-> | Hc]);
    try (unfold selected; simpl; rewrite Hs; reflexivity);
    try congruence.
  inversion Hc.
Qed.

(** When feature columns are missing, [prepare_features] raises a
    [KeyError] that lists exactly the missing ones, in feature order, in
    either mode, and leaves the preprocessor as it was: in fit mode no
    encoder is stored. *)
Theorem prepare_features_missing (self : DataPreprocessor) (df : DataFrame)
    (fit_encoders : bool) :
  let missing := List.filter (fun c => negb (has_column df c)) feature_cols in
  missing <> [] ->
  prepare_features self df fit_encoders = (Raise (KeyError missing), self).
Proof.
  intros missing Hne. unfold prepare_features, select. fold missing.
  destruct missing; [contradiction | reflexivity].
Qed.

(** What fit mode learns, apply mode reuses: after a successful
    fit-mode call, an apply-mode call on the same table returns the same
    features and labels and leaves the preprocessor alone. *)
Theorem prepare_features_fit_then_apply (self self' : DataPreprocessor)
    (df X : DataFrame) (y : option series) :
  prepare_features self df true = (Ok (X, y), self') ->
  prepare_features self' df false = (Ok (X, y), self').
Proof.
  unfold prepare_features.
  destruct (select df feature_cols) as [X0|]; [|discriminate].
  unfold mbind, Exc_bind.
  destruct (getitem X0 "Gender") as [g|]; [|discriminate].
  destruct (LabelEncoder_fit g) as [le|]; [|discriminate].
  destruct (LabelEncoder_transform le g) as [codes|] eqn:Et; [|discriminate].
  intros [= <- <- <-]. simpl.
  rewrite lookup_insert_eq, Et. reflexivity.
Qed.

Lemma prepare_features_apply_keeps (self : DataPreprocessor) (df : DataFrame) :
  snd (prepare_features self df false) = self.
Proof.
  unfold prepare_features.
  destruct (select df feature_cols) as [X|]; [|reflexivity].
  destruct (label_encoders self !! "Gender") as [le|]; simpl.
  - destruct (g ← getitem X "Gender"; codes ← LabelEncoder_transform le g;
              Ok (setitem X "Gender" codes)); reflexivity.
  - destruct (g ← getitem X "Gender"; Ok (setitem X "Gender" (map_fillna g)));
      reflexivity.
Qed.

(** A prediction request never changes the application state: neither the
    retained models nor the stored encoder nor the test data. *)
Theorem predict_is_read_only `{NumpyRandom} `{Sklearn}
    (w : Routes.World) (request_json : gmap string value) :
  snd (Routes.predict w request_json) = w /\
  snd (predict_single (Routes.predictor w) request_json) = Routes.predictor w.
Proof.
  assert (Hp : snd (predict_single (Routes.predictor w) request_json)
               = Routes.predictor w).
  { unfold predict_single.
    destruct (best_model (Routes.predictor w)) eqn:Eb; [|reflexivity].
    pose proof (prepare_features_apply_keeps
                  (preprocessor (Routes.predictor w))
                  (single_row request_json)) as Hk.
    destruct (prepare_features _ _ false) as [r pre]. simpl in Hk. subst pre.
    rewrite <- Eb.
    destruct r as [[X y]|e]; simpl; destruct (Routes.predictor w); reflexivity. }
  split; [|exact Hp].
  unfold Routes.predict.
  destruct (best_model (Routes.predictor w)); [|reflexivity].
  destruct (predict_single (Routes.predictor w) request_json) as [r p].
  simpl in Hp. subst p. simpl. destruct w; reflexivity.
Qed.

(** ** The label encoder *)

Lemma mapE_as_str (labels : list string) :
  mapE as_str (map VStr labels) = Ok labels.
Proof.
  induction labels as [|s l IH]; [reflexivity|].
  simpl. rewrite IH. reflexivity.
Qed.

Lemma mapE_as_int (l : list Z) : mapE as_int (map VInt l) = Ok l.
Proof.
  induction l as [|z l IH]; [reflexivity|].
  simpl. rewrite IH. reflexivity.
Qed.

Lemma elem_of_insert_sorted (s x : string) (l : list string) :
  x ∈ insert_sorted s l <-> x = s \/ x ∈ l.
Proof.
  induction l as [|y l IH]; simpl.
  - rewrite list_elem_of_singleton, elem_of_nil. tauto.
  - destruct (String.compare s y) eqn:E.
    + apply String.compare_eq_iff in E as ->.
      rewrite elem_of_cons. tauto.
    + rewrite elem_of_cons. tauto.
    + rewrite !elem_of_cons, IH. tauto.
Qed.

Lemma elem_of_np_unique (x : string) (l : list string) :
  x ∈ np_unique l <-> x ∈ l.
Proof.
  unfold np_unique. induction l as [|s l IH]; simpl; [reflexivity|].
  rewrite elem_of_insert_sorted, elem_of_cons, IH. reflexivity.
Qed.

Lemma compare_Gt_lt (s x : string) :
  String.compare s x = Gt -> string_lt x s.
Proof.
  intros E. unfold string_lt, String.ltb.
  rewrite String.compare_antisym, E. reflexivity.
Qed.

Lemma insert_sorted_Sorted (s : string) (l : list string) :
  Sorted string_lt l -> Sorted string_lt (insert_sorted s l).
Proof.
  induction l as [|x l IH]; simpl; intros Hs.
  - repeat constructor.
  - destruct (String.compare s x) eqn:E.
    + exact Hs.
    + constructor; [exact Hs|]. constructor.
      unfold string_lt, String.ltb. rewrite E. reflexivity.
    + apply Sorted_inv in Hs as [Hs Hhd].
      constructor; [apply IH, Hs|].
      destruct l as [|y l]; simpl.
      * constructor. apply compare_Gt_lt, E.
      * destruct (String.compare s y) eqn:E'.
        -- exact Hhd.
        -- constructor. apply compare_Gt_lt, E.
        -- constructor. apply HdRel_inv in Hhd. exact Hhd.
Qed.

Lemma np_unique_Sorted (l : list string) : Sorted string_lt (np_unique l).
Proof.
  unfold np_unique. induction l as [|s l IH]; simpl.
  - constructor.
  - apply insert_sorted_Sorted, IH.
Qed.

Lemma index_of_lookup (s : string) (l : list string) (i : Z) :
  index_of s l = Some i -> 0 <= i /\ l !! Z.to_nat i = Some s.
Proof.
  revert i. induction l as [|x l IH]; simpl; intros i E; [discriminate|].
  destruct (String.eqb_spec x s) as [->|Hne].
  - injection E as <-. split; [lia | reflexivity].
  - destruct (index_of s l) as [j|]; [|discriminate].
    simpl in E. injection E as <-.
    destruct (IH j eq_refl) as [Hj Hl]. split; [lia|].
    rewrite Z2Nat.inj_succ by exact Hj. exact Hl.
Qed.

Lemma index_of_elem (s : string) (l : list string) :
  s ∈ l -> is_Some (index_of s l).
Proof.
  induction l as [|x l IH]; simpl; intros Hin; [inversion Hin|].
  destruct (String.eqb_spec x s) as [->|Hne]; [eauto|].
  apply elem_of_cons in Hin as [-> | Hin]; [contradiction|].
  destruct (IH Hin) as [j ->]. simpl. eauto.
Qed.

Lemma transform_known (classes labels : list string) :
  (forall s, s ∈ labels -> s ∈ classes) ->
  exists codes,
    LabelEncoder_transform {| classes_ := Some classes |} (map VStr labels)
      = Ok (map VInt codes) /\
    Forall2 (fun s i => index_of s classes = Some i) labels codes.
Proof.
  unfold LabelEncoder_transform. simpl.
  induction labels as [|s l IH]; intros Hin.
  - exists []. split; [reflexivity | constructor].
  - destruct IH as (codes & Ht & Hf).
    { intros x Hx. apply Hin. right. exact Hx. }
    destruct (index_of_elem s classes) as [i Hi]; [apply Hin; left|].
    exists (i :: codes). simpl. rewrite Hi. simpl.
    unfold mbind, Exc_bind in *. rewrite Ht.
    split; [reflexivity | constructor; assumption].
Qed.

(** Fitting the encoder on a column of strings and transforming the same
    column never raises; the classes are the labels of the column in
    strictly increasing order, and every code is the position of its label
    among the classes, so equal codes mean equal labels. *)
Theorem fit_transform_round_trip (labels : list string) :
  exists classes codes,
    LabelEncoder_fit (map VStr labels) = Ok {| classes_ := Some classes |} /\
    LabelEncoder_transform {| classes_ := Some classes |} (map VStr labels)
      = Ok (map VInt codes) /\
    Forall2 (fun s i => 0 <= i /\ classes !! Z.to_nat i = Some s) labels codes /\
    (forall s, s ∈ classes <-> s ∈ labels) /\
    Sorted (fun a b => String.ltb a b = true) classes.
Proof.
  exists (np_unique labels).
  destruct (transform_known (np_unique labels) labels) as (codes & Ht & Hf).
  { intros s Hs. apply elem_of_np_unique, Hs. }
  exists codes. split.
  { unfold LabelEncoder_fit. rewrite mapE_as_str. reflexivity. }
  split; [exact Ht|]. split.
  { eapply Forall2_impl; [exact Hf|]. intros s i Hi.
    apply index_of_lookup, Hi. }
  split; [intros s; apply elem_of_np_unique | apply np_unique_Sorted].
Qed.

Lemma sorted_F_M (classes : list string) :
  Sorted string_lt classes ->
  (forall s, s ∈ classes -> s = "F" \/ s = "M") ->
  "F" ∈ classes -> "M" ∈ classes ->
  classes = ["F"; "M"].
Proof.
  intros Hs Hfm HF HM.
  assert (Hstep : forall a b l, Sorted string_lt (a :: b :: l) ->
                                (a = "F" \/ a = "M") -> (b = "F" \/ b = "M") ->
                                a = "F" /\ b = "M").
  { intros a b l Hab Ha Hb. apply Sorted_inv in Hab as [_ Hhd].
    apply HdRel_inv in Hhd. unfold string_lt in Hhd.
    destruct Ha as [-> | ->], Hb as [-> | ->]; try discriminate Hhd.
    split; reflexivity. }
  destruct classes as [|a [|b [|c l]]].
  - inversion HF.
  - apply list_elem_of_singleton in HF, HM. congruence.
  - destruct (Hstep a b [] Hs) as [-> ->]; [apply Hfm; left | apply Hfm; right; left|].
    reflexivity.
  - exfalso.
    destruct (Hstep a b (c :: l) Hs) as [-> ->];
      [apply Hfm; left | apply Hfm; right; left|].
    apply Sorted_inv in Hs as [Hs _].
    destruct (Hstep "M" c l Hs) as [E _];
      [right; reflexivity | apply Hfm; right; right; left|].
    discriminate E.
Qed.

(** When the gender column of the training table holds F and M and
    nothing else, the fitted encoder assigns the codes of the fallback
    mapping: F is 0 and M is 1. *)
Theorem fitted_codes_match_fallback (labels : list string) (le : LabelEncoder) :
  (forall s, s ∈ labels -> s = "F" \/ s = "M") ->
  "F" ∈ labels -> "M" ∈ labels ->
  LabelEncoder_fit (map VStr labels) = Ok le ->
  classes_ le = Some ["F"; "M"] /\
  forall g, g ∈ ["F"; "M"] ->
    LabelEncoder_transform le [VStr g] = Ok (map_fillna [VStr g]).
Proof.
  intros Hfm HF HM. unfold LabelEncoder_fit. rewrite mapE_as_str.
  intros [= <-]. simpl.
  assert (Hcl : np_unique labels = ["F"; "M"]).
  { apply sorted_F_M.
    - apply np_unique_Sorted.
    - intros s Hs. apply Hfm, elem_of_np_unique, Hs.
    - apply elem_of_np_unique, HF.
    - apply elem_of_np_unique, HM. }
  rewrite Hcl. split; [reflexivity|].
  intros g Hg. unfold LabelEncoder_transform. simpl.
  apply elem_of_cons in Hg as [-> | Hg]; [reflexivity|].
  apply list_elem_of_singleton in Hg as ->. reflexivity.
Qed.

Lemma fitted_codes_match_fallback_witness :
  classes_ {| classes_ := Some (np_unique ["M"; "F"; "F"; "M"]) |}
    = Some ["F"; "M"].
Proof.
  apply (fitted_codes_match_fallback ["M"; "F"; "F"; "M"]).
  - intros s Hs. repeat (apply elem_of_cons in Hs as [-> | Hs]); auto.
    inversion Hs.
  - right. left.
  - left.
  - reflexivity.
Defined.

(** ** Feature engineering as a whole *)

(** Membership in a list of literals, decided by evaluation. *)
Ltac by_evaluation := apply (bool_decide_unpack _); vm_compute; exact I.

Lemma exc_bind_ok {A B : Type} (a : A) (f : A -> Exc B) :
  (Ok a ≫= f) = f a.
Proof. reflexivity. Qed.

Lemma setitem_same (df : DataFrame) (col : string) (s : series) :
  df_lookup df col = Some s -> setitem df col s = df.
Proof.
  induction df as [|[c s'] df IH]; simpl; [discriminate|].
  destruct (String.eqb c col).
  - intros [= ->]. reflexivity.
  - intros E. rewrite IH by exact E. reflexivity.
Qed.

Lemma dt_hour_datetime (s : series) :
  is_datetime64_any_dtype s = true -> dt_hour s = Ok (map hour_of s).
Proof.
  intros Hd. assert (Hall : forallb is_datetime s = true).
  { destruct s; [discriminate | exact Hd]. }
  clear Hd. unfold dt_hour. induction s as [|v s IH]; [reflexivity|].
  simpl in Hall. apply andb_true_iff in Hall as [Hv Hs].
  destruct v; try discriminate Hv. simpl. unfold mbind, Exc_bind in *.
  rewrite (IH Hs). reflexivity.
Qed.

Section FeatureEngineeringRuns.
Context `{Pandas}.

Lemma ensure_datetime_skip (df : DataFrame) (col : string) :
  datetime_column df col -> ensure_datetime df col = Ok df.
Proof.
  intros (s & Hs & Hd). unfold ensure_datetime, getitem.
  rewrite Hs. simpl. rewrite Hd. reflexivity.
Qed.

(** The frame after the datetime and hour steps, and the frame returned,
    for a table with datetime columns and integer raw columns. *)
Lemma feature_engineering_run (df : DataFrame)
    (Age Hip Dia Alc Han SMS days Sch aw : list Z) :
  datetime_column df "ScheduledDay" ->
  datetime_column df "AppointmentDay" ->
  int_column df "Age" = Ok Age ->
  int_column df "Hipertension" = Ok Hip ->
  int_column df "Diabetes" = Ok Dia ->
  int_column df "Alcoholism" = Ok Alc ->
  int_column df "Handcap" = Ok Han ->
  int_column df "SMS_received" = Ok SMS ->
  int_column df "days_between" = Ok days ->
  int_column df "Scholarship" = Ok Sch ->
  int_column df "appointment_weekday" = Ok aw ->
  exists df3,
    (forall c, c <> "scheduled_hour" -> df_lookup df3 c = df_lookup df c) /\
    is_Some (df_lookup df3 "scheduled_hour") /\
    (is_Some (df_lookup df "scheduled_hour") -> df3 = df) /\
    feature_engineering df =
      Ok (setitem
            (setitem
               (setitem
                  (setitem df3 "age_group"
                     (map (fun a => categorical (age_group a)) Age))
                  "total_conditions"
                  (map VInt (map4 total_conditions Hip Dia Alc Han)))
               "risk_score" (map VFloat (map4 risk_score Age SMS days Sch)))
            "is_weekend" (map (fun w => VInt (is_weekend w)) aw)).
Proof.
  intros Hsd Had HAge HHip HDia HAlc HHan HSMS Hdays HSch Haw.
  unfold feature_engineering.
  rewrite (ensure_datetime_skip df _ Hsd), exc_bind_ok.
  rewrite (ensure_datetime_skip df _ Had), exc_bind_ok.
  destruct Hsd as (sched & Hsched & Hdt).
  set (df3 := if has_column df "scheduled_hour" then df
              else setitem df "scheduled_hour" (map hour_of sched)).
  assert (H3 : (if negb (has_column df "scheduled_hour")
                then s ← getitem df "ScheduledDay"; h ← dt_hour s;
                     Ok (setitem df "scheduled_hour" h)
                else Ok df) = Ok df3).
  { subst df3. destruct (has_column df "scheduled_hour"); [reflexivity|].
    simpl. unfold getitem. rewrite Hsched. simpl.
    rewrite (dt_hour_datetime _ Hdt). reflexivity. }
  rewrite H3, exc_bind_ok.
  assert (Hother : forall c, c <> "scheduled_hour" ->
                             df_lookup df3 c = df_lookup df c).
  { intros c Hc. subst df3. destruct (has_column df "scheduled_hour");
      [reflexivity|]. apply df_lookup_setitem_ne. congruence. }
  assert (Hint : forall c, c <> "scheduled_hour" ->
                           int_column df3 c = int_column df c).
  { intros c Hc. unfold int_column, getitem. rewrite (Hother c Hc). reflexivity. }
  exists df3. split; [exact Hother|]. split.
  { subst df3. unfold has_column.
    destruct (df_lookup df "scheduled_hour") eqn:E; [rewrite E; eauto|].
    rewrite df_lookup_setitem. eauto. }
  split.
  { intros [h Hh]. subst df3. unfold has_column. rewrite Hh. reflexivity. }
  rewrite (Hint "Age"), HAge, exc_bind_ok by discriminate.
  rewrite !int_column_setitem_ne, !Hint by discriminate.
  rewrite HHip, exc_bind_ok, HDia, exc_bind_ok, HAlc, exc_bind_ok,
    HHan, exc_bind_ok.
  rewrite !int_column_setitem_ne, !Hint by discriminate.
  rewrite HAge, exc_bind_ok, HSMS, exc_bind_ok, Hdays, exc_bind_ok,
    HSch, exc_bind_ok.
  rewrite !int_column_setitem_ne, !Hint by discriminate.
  rewrite Haw, exc_bind_ok. reflexivity.
Qed.

(** A successful run has read the nine raw columns as integer columns. *)
Lemma feature_engineering_reads (df df' : DataFrame) :
  feature_engineering df = Ok df' ->
  forall c, c ∈ raw_int_cols -> is_Ok (int_column df c) = true.
Proof.
  unfold feature_engineering. intros E. unfold mbind, Exc_bind in E.
  destruct (ensure_datetime df "ScheduledDay") as [df1|] eqn:E1;
    [|discriminate].
  destruct (ensure_datetime df1 "AppointmentDay") as [df2|] eqn:E2;
    [|discriminate].
  match type of E with
  | match ?m with Ok _ => _ | Raise _ => _ end = _ =>
      destruct m as [df3|] eqn:E3; [|discriminate]
  end.
  assert (Hraw : forall c, c <> "ScheduledDay" -> c <> "AppointmentDay" ->
                           c <> "scheduled_hour" ->
                           int_column df3 c = int_column df c).
  { intros c Hs Ha Hh.
    rewrite <- (ensure_datetime_other df df1 _ c E1) by congruence.
    rewrite <- (ensure_datetime_other df1 df2 _ c E2) by congruence.
    destruct (has_column df2 "scheduled_hour"); simpl in E3.
    - injection E3 as <-. reflexivity.
    - destruct (getitem df2 "ScheduledDay") as [s|]; [|discriminate].
      destruct (dt_hour s) as [h|]; [|discriminate].
      injection E3 as <-. apply int_column_setitem_ne. congruence. }
  clear E1 E2 E3.
  repeat match type of E with
         | match ?m with Ok _ => _ | Raise _ => _ end = _ =>
             let x := fresh "col" in
             let Ex := fresh "Ecol" in
             destruct m as [x|] eqn:Ex; [|discriminate]
         end.
  rewrite !int_column_setitem_ne in * by discriminate.
  rewrite !Hraw in * by discriminate.
  intros c Hc. unfold raw_int_cols in Hc.
  repeat (apply elem_of_cons in Hc as [-> | Hc]);
    try match goal with
        | Hcol : int_column df _ = Ok _ |- _ => rewrite Hcol; reflexivity
        end.
  inversion Hc.
Qed.

(** On a table whose two date columns are of datetime dtype and whose
    nine raw columns are integer columns, feature engineering succeeds;
    it then writes only its five columns (the hour only when absent) and
    leaves every other column as it was. *)
Theorem feature_engineering_succeeds (df : DataFrame) :
  datetime_column df "ScheduledDay" ->
  datetime_column df "AppointmentDay" ->
  (forall c, c ∈ raw_int_cols -> is_Ok (int_column df c) = true) ->
  exists df',
    feature_engineering df = Ok df' /\
    (forall c, c ∉ engineered_cols -> df_lookup df' c = df_lookup df c) /\
    (forall c, c ∈ engineered_cols -> is_Some (df_lookup df' c)) /\
    (forall h, df_lookup df "scheduled_hour" = Some h ->
               df_lookup df' "scheduled_hour" = Some h).
Proof.
  intros Hsd Had Hint.
  assert (Hcol : forall c, c ∈ raw_int_cols -> exists l, int_column df c = Ok l).
  { intros c Hc. specialize (Hint c Hc).
    destruct (int_column df c) as [l|]; [eauto | discriminate]. }
  destruct (Hcol "Age") as [Age HAge]; [by_evaluation|].
  destruct (Hcol "Hipertension") as [Hip HHip]; [by_evaluation|].
  destruct (Hcol "Diabetes") as [Dia HDia]; [by_evaluation|].
  destruct (Hcol "Alcoholism") as [Alc HAlc]; [by_evaluation|].
  destruct (Hcol "Handcap") as [Han HHan]; [by_evaluation|].
  destruct (Hcol "SMS_received") as [SMS HSMS]; [by_evaluation|].
  destruct (Hcol "days_between") as [days Hdays]; [by_evaluation|].
  destruct (Hcol "Scholarship") as [Sch HSch]; [by_evaluation|].
  destruct (Hcol "appointment_weekday") as [aw Haw]; [by_evaluation|].
  destruct (feature_engineering_run df Age Hip Dia Alc Han SMS days Sch aw
              Hsd Had HAge HHip HDia HAlc HHan HSMS Hdays HSch Haw)
    as (df3 & Hother & Hhour & Hsame & Hrun).
  eexists. split; [exact Hrun|]. split; [|split].
  - intros c Hc. unfold engineered_cols in Hc.
    rewrite !not_elem_of_cons in Hc. destruct Hc as (H1 & H2 & H3 & H4 & H5 & _).
    rewrite !df_lookup_setitem_ne by congruence. apply Hother. congruence.
  - intros c Hc. unfold engineered_cols in Hc.
    repeat (apply elem_of_cons in Hc as [-> | Hc]);
      try (rewrite ?df_lookup_setitem_ne by discriminate;
           first [exact Hhour | rewrite df_lookup_setitem; eauto]).
    inversion Hc.
  - intros h Hh. rewrite !df_lookup_setitem_ne by discriminate.
    rewrite Hsame by eauto. exact Hh.
Qed.

(** Feature engineering can be repeated: on a table with datetime
    columns, engineering the engineered table again returns it
    unchanged. *)
Theorem feature_engineering_idempotent (df df' : DataFrame) :
  datetime_column df "ScheduledDay" ->
  datetime_column df "AppointmentDay" ->
  feature_engineering df = Ok df' ->
  feature_engineering df' = Ok df'.
Proof.
  intros Hsd Had E.
  assert (Hcol : forall c, c ∈ raw_int_cols -> exists l, int_column df c = Ok l).
  { intros c Hc. pose proof (feature_engineering_reads df df' E c Hc) as Hok.
    destruct (int_column df c) as [l|]; [eauto | discriminate]. }
  destruct (Hcol "Age") as [Age HAge]; [by_evaluation|].
  destruct (Hcol "Hipertension") as [Hip HHip]; [by_evaluation|].
  destruct (Hcol "Diabetes") as [Dia HDia]; [by_evaluation|].
  destruct (Hcol "Alcoholism") as [Alc HAlc]; [by_evaluation|].
  destruct (Hcol "Handcap") as [Han HHan]; [by_evaluation|].
  destruct (Hcol "SMS_received") as [SMS HSMS]; [by_evaluation|].
  destruct (Hcol "days_between") as [days Hdays]; [by_evaluation|].
  destruct (Hcol "Scholarship") as [Sch HSch]; [by_evaluation|].
  destruct (Hcol "appointment_weekday") as [aw Haw]; [by_evaluation|].
  destruct (feature_engineering_run df Age Hip Dia Alc Han SMS days Sch aw
              Hsd Had HAge HHip HDia HAlc HHan HSMS Hdays HSch Haw)
    as (df3 & Hother & Hhour & _ & Hrun).
  rewrite Hrun in E. injection E as E.
  assert (Hlook : forall c, c ∉ engineered_cols ->
                            df_lookup df' c = df_lookup df c).
  { intros c Hc. subst df'. unfold engineered_cols in Hc.
    rewrite !not_elem_of_cons in Hc. destruct Hc as (H1 & H2 & H3 & H4 & H5 & _).
    rewrite !df_lookup_setitem_ne by congruence. apply Hother. congruence. }
  assert (Hint' : forall c, c ∉ engineered_cols ->
                            int_column df' c = int_column df c).
  { intros c Hc. unfold int_column, getitem. rewrite (Hlook c Hc). reflexivity. }
  assert (Hdt : forall c, c ∉ engineered_cols -> datetime_column df c ->
                          datetime_column df' c).
  { intros c Hc (s & Hs & Hd). exists s. rewrite (Hlook c Hc). auto. }
  destruct Hhour as [h Hh].
  assert (Hh' : df_lookup df' "scheduled_hour" = Some h).
  { subst df'. rewrite !df_lookup_setitem_ne by discriminate. exact Hh. }
  destruct (feature_engineering_run df' Age Hip Dia Alc Han SMS days Sch aw)
    as (df3' & _ & _ & Hsame' & Hrun');
    try (rewrite Hint' by by_evaluation; assumption);
    try (apply Hdt; [by_evaluation | assumption]).
  rewrite Hrun'. rewrite (Hsame' (ex_intro _ h Hh')). f_equal.
  assert (Hag : df_lookup df' "age_group"
                = Some (map (fun a => categorical (age_group a)) Age)).
  { subst df'. rewrite !df_lookup_setitem_ne by discriminate.
    apply df_lookup_setitem. }
  assert (Htc : df_lookup df' "total_conditions"
                = Some (map VInt (map4 total_conditions Hip Dia Alc Han))).
  { subst df'. rewrite !df_lookup_setitem_ne by discriminate.
    apply df_lookup_setitem. }
  assert (Hrs : df_lookup df' "risk_score"
                = Some (map VFloat (map4 risk_score Age SMS days Sch))).
  { subst df'. rewrite !df_lookup_setitem_ne by discriminate.
    apply df_lookup_setitem. }
  assert (Hiw : df_lookup df' "is_weekend"
                = Some (map (fun w => VInt (is_weekend w)) aw)).
  { subst df'. apply df_lookup_setitem. }
  rewrite (setitem_same df' _ _ Hag), (setitem_same df' _ _ Htc),
    (setitem_same df' _ _ Hrs), (setitem_same df' _ _ Hiw).
  reflexivity.
Qed.
End FeatureEngineeringRuns.

(** ** The generated table *)

Section GeneratorFacts.
Context `{NumpyRandom}.

Lemma scheduled_days_length (n : nat) (g : RandomState) :
  length (fst (scheduled_days n g)) = n.
Proof.
  revert g. induction n as [|n IH]; intros g; [reflexivity|].
  simpl. unfold rand_bind, rand_ret.
  destruct (np_random_randint_scalar (-30) 1 g) as [d g1].
  specialize (IH g1). destruct (scheduled_days n g1) as [ds g2].
  simpl in *. rewrite IH. reflexivity.
Qed.

Lemma scheduled_days_hour (n : nat) (g : RandomState) :
  Forall (fun d => snd d = 0) (fst (scheduled_days n g)).
Proof.
  revert g. induction n as [|n IH]; intros g; [constructor|].
  simpl. unfold rand_bind, rand_ret.
  destruct (np_random_randint_scalar (-30) 1 g) as [d g1].
  specialize (IH g1). destruct (scheduled_days n g1) as [ds g2].
  simpl in *. constructor; [reflexivity | exact IH].
Qed.

Lemma astype_int_clip (lo hi : Z) (x : Q) :
  0 <= lo -> lo <= hi ->
  lo <= astype_int (np_clip x (inject_Z lo) (inject_Z hi)) <= hi.
Proof.
  intros H0 Hlh.
  set (q := np_clip x (inject_Z lo) (inject_Z hi)).
  assert (Hq : (inject_Z lo <= q /\ q <= inject_Z hi)%Q).
  { subst q. unfold np_clip.
    assert (Hle : (inject_Z lo <= inject_Z hi)%Q) by (rewrite <- Zle_Qle; exact Hlh).
    destruct (Qltb x (inject_Z lo)) eqn:E1.
    - destruct (Qltb (inject_Z hi) (inject_Z lo)) eqn:E2.
      + apply Qltb_lt in E2. exfalso. exact (Qlt_not_le _ _ E2 Hle).
      + split; [apply Qle_refl | exact Hle].
    - apply Qltb_ge in E1. destruct (Qltb (inject_Z hi) x) eqn:E2.
      + split; [exact Hle | apply Qle_refl].
      + apply Qltb_ge in E2. split; assumption. }
  destruct Hq as [Hlo Hhi]. unfold astype_int.
  destruct q as [num den]. unfold Qle in Hlo, Hhi. simpl in *.
  rewrite Z.mul_1_r in Hlo, Hhi.
  assert (Hnum : 0 <= num) by nia.
  rewrite Z.quot_div_nonneg by lia.
  split.
  - apply Z.div_le_lower_bound; lia.
  - apply Z.div_le_upper_bound; lia.
Qed.

(** The table as the source assembles it, with what is known of its
    columns whatever the samplers return. *)
Lemma synthetic_data_shape (seed n : Z) (g : RandomState) :
  exists pid aid genders ages_raw nb sch hip dia alc han sms days_raw
         sw aw ns sched g6,
    days_raw = fst (np_random_exponential 7 n g6) /\
    length sched = Z.to_nat n /\
    Forall (fun d => snd d = 0) sched /\
    fst (synthetic_data seed n g) =
      appointments_frame pid aid genders
        (map (fun a => astype_int (np_clip a 0 95)) ages_raw) nb
        sch hip dia alc han sms
        (map (fun d => astype_int (np_clip d 0 179)) days_raw)
        sw aw ns sched.
Proof.
  unfold synthetic_data, rand_bind, rand_ret.
  repeat match goal with
         | |- context [let '(_, _) := ?m in _] => destruct m eqn:?
         end.
  match goal with
  | E7 : np_random_exponential 7 n ?g6 = (?days_raw, _),
    E14 : scheduled_days (Z.to_nat n) ?g13 = (?sched, _) |- _ =>
      pose proof (scheduled_days_length (Z.to_nat n) g13) as Hlen;
      pose proof (scheduled_days_hour (Z.to_nat n) g13) as Hhour;
      rewrite E14 in Hlen, Hhour;
      assert (Hraw : days_raw = fst (np_random_exponential 7 n g6))
        by (rewrite E7; reflexivity)
  end.
  do 17 eexists. split; [exact Hraw|]. split; [exact Hlen|].
  split; [exact Hhour|]. reflexivity.
Qed.

(** Whatever numpy's samplers return, every generated age lies in
    [0, 95] and every days-between in [0, 179]; there is one scheduled day
    per requested record, at hour 0, and each appointment day is its
    scheduled day plus the days-between of the row, so never before it. *)
Theorem generated_table_invariants (seed n : Z) (g : RandomState) :
  let df := fst (synthetic_data seed n g) in
  exists (ages days : list Z) (sched : list Z),
    df_lookup df "Age" = Some (map VInt ages) /\
    Forall (fun a => 0 <= a <= 95) ages /\
    df_lookup df "days_between" = Some (map VInt days) /\
    Forall (fun d => 0 <= d <= 179) days /\
    df_lookup df "ScheduledDay" = Some (map (fun s => VDatetime s 0) sched) /\
    length sched = Z.to_nat n /\
    df_lookup df "AppointmentDay"
      = Some (zip_with (fun s d => VDatetime (s + d) 0) sched days) /\
    Forall (fun d => 0 <= d) days.
Proof.
  intros df. subst df.
  destruct (synthetic_data_shape seed n g)
    as (pid & aid & genders & ages_raw & nb & sch & hip & dia & alc & han
        & sms & days_raw & sw & aw & ns & sched & g6 & _ & Hlen & Hhour & ->).
  set (ages := map (fun a => astype_int (np_clip a 0 95)) ages_raw).
  set (days := map (fun d => astype_int (np_clip d 0 179)) days_raw).
  assert (Hdays : Forall (fun d => 0 <= d <= 179) days).
  { subst days. apply Forall_fmap, Forall_forall. intros x _.
    apply (astype_int_clip 0 179 x); lia. }
  exists ages, days, (map fst sched).
  split; [reflexivity|]. split.
  { subst ages. apply Forall_fmap, Forall_forall. intros x _.
    apply (astype_int_clip 0 95 x); lia. }
  split; [reflexivity|]. split; [exact Hdays|]. split.
  { unfold appointments_frame, df_lookup. simpl. f_equal.
    rewrite map_map. apply map_ext_Forall.
    eapply Forall_impl; [exact Hhour|]. intros [d h] Hd. simpl in *.
    rewrite Hd. reflexivity. }
  split; [rewrite length_map; exact Hlen|]. split.
  { unfold appointments_frame, df_lookup. simpl. f_equal.
    clearbody days. clear -Hhour. revert days.
    induction sched as [|[d h] sched IH];
      intros days; [reflexivity|].
    apply Forall_cons in Hhour as [Hh Hhour]. simpl in Hh. subst h.
    destruct days as [|x days]; [reflexivity|]. simpl.
    f_equal. apply IH, Hhour. }
  eapply Forall_impl; [exact Hdays|]. intros d [Hd _]. exact Hd.
Qed.

Lemma datetime_column_nonempty (df : DataFrame) (col : string) (s : series) :
  df_lookup df col = Some s -> s <> [] -> forallb is_datetime s = true ->
  datetime_column df col.
Proof.
  intros Hs Hne Hall. exists s. split; [exact Hs|].
  destruct s; [contradiction | exact Hall].
Qed.
End GeneratorFacts.

(** Fit mode on a table with every feature column and a gender column of
    strings: it never raises, and it stores the encoder of the labels. *)
Lemma prepare_features_fit (self : DataPreprocessor) (df : DataFrame)
    (labels : list string) :
  (forall c, c ∈ feature_cols -> is_Some (df_lookup df c)) ->
  df_lookup df "Gender" = Some (map VStr labels) ->
  exists codes,
    prepare_features self df true =
      (Ok (setitem (selected df) "Gender" (map VInt codes),
           df_lookup df "No-show"),
       {| label_encoders :=
            <["Gender" := {| classes_ := Some (np_unique labels) |}]>
              (<["Gender" := {| classes_ := None |}]> (label_encoders self)) |}).
Proof.
  intros Hall Hg.
  destruct (transform_known (np_unique labels) labels) as (codes & Ht & _).
  { intros s Hs. apply elem_of_np_unique, Hs. }
  exists codes. unfold prepare_features.
  rewrite (select_all df feature_cols Hall). fold (selected df).
  assert (Hget : getitem (selected df) "Gender" = Ok (map VStr labels)).
  { unfold selected, getitem. simpl. rewrite Hg. reflexivity. }
  rewrite Hget, exc_bind_ok.
  unfold LabelEncoder_fit. rewrite mapE_as_str, !exc_bind_ok.
  rewrite Ht, exc_bind_ok.
  assert (Hy : (if has_column df "No-show" then df_lookup df "No-show" else None)
               = df_lookup df "No-show").
  { unfold has_column. destruct (df_lookup df "No-show"); reflexivity. }
  rewrite Hy. reflexivity.
Qed.

Section PipelineFacts.
Context `{NumpyRandom} `{Pandas}.

(** Preprocessing never fails on generated data.  When numpy returns as
    many samples as asked for and at least one record is requested,
    feature engineering succeeds on the generated table without calling
    [pd.to_datetime], and fit-mode encoding of the result succeeds with
    the fourteen feature columns, the label column and a fitted gender
    encoder. *)
Theorem generated_table_preprocesses (seed n : Z) (g : RandomState)
    (self : DataPreprocessor) :
  exponential_sized -> 0 < n ->
  exists df' X y self' classes,
    feature_engineering (fst (synthetic_data seed n g)) = Ok df' /\
    prepare_features self df' true = (Ok (X, Some y), self') /\
    X.*1 = feature_cols /\
    label_encoders self' !! "Gender" = Some {| classes_ := Some classes |}.
Proof.
  intros Hsized Hn.
  destruct (synthetic_data_shape seed n g)
    as (pid & aid & genders & ages_raw & nb & sch & hip & dia & alc & han
        & sms & days_raw & sw & aw & ns & sched & g6 & Hraw & Hlen & _ & ->).
  set (ages := map (fun a => astype_int (np_clip a 0 95)) ages_raw).
  set (days := map (fun d => astype_int (np_clip d 0 179)) days_raw).
  set (tbl := appointments_frame pid aid genders ages nb sch hip dia alc han
                sms days sw aw ns sched).
  assert (Hsched : sched <> []).
  { intros ->. simpl in Hlen. lia. }
  assert (Hdays : days <> []).
  { subst days. intros E. apply (f_equal length) in E.
    rewrite length_map, Hraw, Hsized in E. simpl in E. lia. }
  assert (Hsd : datetime_column tbl "ScheduledDay").
  { eapply datetime_column_nonempty; [reflexivity| |].
    - destruct sched; [contradiction | discriminate].
    - clear. induction sched as [|d l IH]; [reflexivity | exact IH]. }
  assert (Had : datetime_column tbl "AppointmentDay").
  { eapply datetime_column_nonempty; [reflexivity| |].
    - destruct sched; [contradiction|]. destruct days; [contradiction|].
      discriminate.
    - generalize days. clear. induction sched as [|d l IH]; intros days;
        [reflexivity|]. destruct days; [reflexivity | apply IH]. }
  assert (Hint : forall c l, df_lookup tbl c = Some (map VInt l) ->
                             int_column tbl c = Ok l).
  { intros c l Hc. unfold int_column, getitem. rewrite Hc, exc_bind_ok.
    apply mapE_as_int. }
  destruct (feature_engineering_run tbl ages hip dia alc han sms days sch aw
              Hsd Had) as (df3 & Hother & _ & _ & Hrun);
    try (apply Hint; reflexivity).
  eexists. 
  destruct (prepare_features_fit self
              (setitem
                 (setitem
                    (setitem
                       (setitem df3 "age_group"
                          (map (fun a => categorical (age_group a)) ages))
                       "total_conditions"
                       (map VInt (map4 total_conditions hip dia alc han)))
                    "risk_score"
                    (map VFloat (map4 risk_score ages sms days sch)))
                 "is_weekend" (map (fun w => VInt (is_weekend w)) aw))
              genders) as (codes & Hfit).
  { intros c Hc. unfold feature_cols in Hc.
    repeat (apply elem_of_cons in Hc as [-> | Hc]);
      try (rewrite ?df_lookup_setitem_ne by discriminate;
           first [ rewrite df_lookup_setitem; eauto
                 | rewrite Hother by discriminate; eexists; reflexivity ]).
    inversion Hc. }
  { rewrite !df_lookup_setitem_ne by discriminate.
    rewrite Hother by discriminate. reflexivity. }
  rewrite !df_lookup_setitem_ne in Hfit by discriminate.
  rewrite Hother in Hfit by discriminate.
  change (df_lookup tbl "No-show") with (Some (map VInt ns)) in Hfit.
  eexists _, _, _, _. split; [exact Hrun|]. split; [exact Hfit|].
  split; [apply selected_keys | apply lookup_insert_eq].
Qed.
End PipelineFacts.

Lemma toy_draws_length (n : nat) (g : Z) : length (fst (Toy.draws n g)) = n.
Proof.
  revert g. induction n as [|n IH]; intros g; [reflexivity|].
  simpl. specialize (IH (Toy.lcg g)).
  destruct (Toy.draws n (Toy.lcg g)) as [zs g']. simpl in *.
  rewrite IH. reflexivity.
Qed.

Lemma toy_exponential_sized : @exponential_sized Toy.numpy.
Proof.
  intros scale size g. simpl. unfold Toy.sample.
  pose proof (toy_draws_length (Z.to_nat size) g) as Hl.
  destruct (Toy.draws (Z.to_nat size) g) as [zs g']. simpl in *.
  rewrite length_map. exact Hl.
Qed.

Lemma generated_table_preprocesses_witness :
  exists df',
    @feature_engineering Toy.pandas
      (fst (@synthetic_data Toy.numpy 42 3 7)) = Ok df'.
Proof.
  destruct (@generated_table_preprocesses Toy.numpy Toy.pandas 42 3 7
              {| label_encoders := ∅ |} toy_exponential_sized ltac:(lia))
    as (df' & _ & _ & _ & _ & Hfe & _).
  exists df'. exact Hfe.
Defined.

(** ** Failing estimators *)

Lemma dict_get_some {V : Type} (d : list (string * V)) (k : string) :
  k ∈ d.*1 -> is_Some (dict_get d k).
Proof.
  induction d as [|[k' v] d IH]; simpl; intros Hk; [inversion Hk|].
  destruct (String.eqb_spec k' k) as [->|Hne]; [eauto|].
  apply elem_of_cons in Hk as [-> | Hk]; [contradiction | apply IH, Hk].
Qed.

Section FailureFacts.
Context `{Sklearn} `{Stdout}.

Lemma evaluate_all_raise (todo : list (string * Estimator)) :
  forall (results : list (string * ModelResult))
         (X_train : DataFrame) (y_train : series)
         (X_test : DataFrame) (y_test : series) (e : exn),
    evaluate_all todo results X_train y_train X_test y_test = Raise e ->
    exists before name estimator after,
      todo = before ++ (name, estimator) :: after /\
      Forall (fun entry =>
                is_Ok (evaluate (snd entry) X_train y_train X_test y_test) = true)
             before /\
      evaluate estimator X_train y_train X_test y_test = Raise e.
Proof.
  induction todo as [|[name est] todo IH];
    intros results X_train y_train X_test y_test e E; simpl in E;
    [discriminate|].
  unfold mbind, Exc_bind in E.
  destruct (evaluate est X_train y_train X_test y_test) as [r|e'] eqn:Eev.
  - apply IH in E as (before & n & es & after & -> & Hok & Hfail).
    exists ((name, est) :: before), n, es, after.
    split; [reflexivity|]. split; [|exact Hfail].
    constructor; [simpl; rewrite Eev; reflexivity | exact Hok].
  - injection E as ->. exists [], name, est, todo.
    split; [reflexivity|]. split; [constructor | exact Eev].
Qed.

Lemma train_models_selects (results : list (string * ModelResult)) :
  results.*1 = menu.*1 ->
  exists name r,
    py_max (auc_of results) results.*1 = Ok name /\
    dict_get results name = Some r.
Proof.
  intros Hkeys.
  destruct (py_max (auc_of results) results.*1) as [name|e] eqn:Emax.
  - apply py_max_first_max in Emax as (pre & post & Hsplit & _).
    destruct (dict_get_some results name) as [r Hr].
    { rewrite Hsplit. apply elem_of_app. right. left. }
    exists name, r. split; [reflexivity | exact Hr].
  - rewrite Hkeys in Emax. discriminate Emax.
Qed.

(** When [train_models] raises, one of two things has happened.  Either
    the exception is the one of the first estimator of the menu, in menu
    order, whose fit or evaluation raises: every estimator before it was
    fitted and scored, none after it was tried, and the predictor is left
    as it was.  Or every estimator of the menu was fitted and scored, the
    winner was chosen and the three attributes were assigned, and the
    exception is the one of the print that announces the winner: the
    predictor then holds the new results, model and name. *)
Theorem train_models_first_failure (self self' : NoShowPredictor)
    (X_train : DataFrame) (y_train : series)
    (X_test : DataFrame) (y_test : series) (e : exn) :
  train_models self X_train y_train X_test y_test = (Raise e, self') ->
  (self' = self /\
   exists before name estimator after,
     menu = before ++ (name, estimator) :: after /\
     Forall (fun entry =>
               is_Ok (evaluate (snd entry) X_train y_train X_test y_test)
                 = true)
            before /\
     evaluate estimator X_train y_train X_test y_test = Raise e) \/
  (exists results name r,
     Forall2 (fun entry res =>
                fst res = fst entry /\
                evaluate (snd entry) X_train y_train X_test y_test
                  = Ok (snd res))
             menu results /\
     py_max (auc_of results) results.*1 = Ok name /\
     dict_get results name = Some r /\
     print (winner_line name) = Raise e /\
     models self' = results /\
     best_model self' = Some (model r) /\
     best_model_name self' = Some name /\
     preprocessor self' = preprocessor self).
Proof.
  intros E. unfold train_models in E. unfold mbind, Exc_bind in E.
  destruct (evaluate_all menu [] X_train y_train X_test y_test)
    as [results|e'] eqn:Eall.
  - right.
    pose proof (evaluate_all_keys menu [] results _ _ _ _ menu_NoDup Eall)
      as Hkeys.
    destruct (train_models_selects results Hkeys) as (name & r & Hmax & Hget).
    rewrite Hmax, Hget in E.
    destruct (print (winner_line name)) as [[]|e'] eqn:Eprint;
      [discriminate E|].
    injection E as -> <-. exists results, name, r.
    apply evaluate_all_entries in Eall as (new & -> & Hnew);
      [|exact menu_NoDup].
    split; [exact Hnew|]. simpl. auto 10.
  - left. injection E as -> <-. split; [reflexivity|].
    exact (evaluate_all_raise menu [] _ _ _ _ _ Eall).
Qed.
End FailureFacts.

Lemma train_models_first_failure_witness :
  let sk := Toy.sklearn Toy.all_fit in
  let run := @train_models sk Toy.ascii new_predictor
               Toy.table [VInt 1; VInt 0] Toy.table [VInt 1; VInt 0] in
  exists e name,
    fst run = Raise e /\
    @print Toy.ascii (winner_line name) = Raise e /\
    best_model_name (snd run) = Some name /\
    models (snd run) <> [].
Proof.
  intros sk run. subst run.
  destruct (@train_models sk Toy.ascii new_predictor
              Toy.table [VInt 1; VInt 0] Toy.table [VInt 1; VInt 0])
    as [[results|e] self'] eqn:E.
  { exfalso. revert E. vm_compute. discriminate. }
  destruct (@train_models_first_failure sk Toy.ascii _ _ _ _ _ _ _ E)
    as [(-> & _)
       |(results & name & r & Hres & _ & _ & Hprint & Hm & _ & Hn & _)].
  { exfalso. revert E. vm_compute. discriminate. }
  exists e, name. simpl. split; [reflexivity|]. split; [exact Hprint|].
  split; [exact Hn|]. rewrite Hm. intros ->. inversion Hres.
Defined.

(** ** The state of the application *)

Lemma prepare_features_fit_stores (self self' : DataPreprocessor)
    (df X : DataFrame) (y : option series) :
  prepare_features self df true = (Ok (X, y), self') ->
  exists classes,
    label_encoders self' !! "Gender" = Some {| classes_ := Some classes |}.
Proof.
  unfold prepare_features.
  destruct (select df feature_cols) as [X0|]; [|discriminate].
  unfold mbind, Exc_bind.
  destruct (getitem X0 "Gender") as [g|]; [|discriminate].
  unfold LabelEncoder_fit, mbind, Exc_bind.
  destruct (mapE as_str g) as [labels|]; [|discriminate].
  destruct (LabelEncoder_transform _ g) as [codes|]; [|discriminate].
  intros [= _ _ <-]. exists (np_unique labels). simpl.
  apply lookup_insert_eq.
Qed.

Lemma index_of_None (s : string) (l : list string) :
  s ∉ l -> index_of s l = None.
Proof.
  induction l as [|x l IH]; simpl; intros Hs; [reflexivity|].
  apply not_elem_of_cons in Hs as [Hne Hs].
  destruct (String.eqb_spec x s) as [->|_]; [contradiction|].
  rewrite (IH Hs). reflexivity.
Qed.

Section StateFacts.
Context `{NumpyRandom} `{Pandas} `{Sklearn} `{Stdout}.

Lemma start_consistent (g : RandomState) : consistent (Routes.start g).
Proof. split; [reflexivity | split; reflexivity]. Qed.

(** What a training request leaves behind.  After an error that is not
    the one of the winner's announcement the predictor's model set and
    the module's results are the old ones; after a success they are the
    new, matching ones and a fitted encoder is stored; when the
    announcement raises, the predictor holds the new model set and the
    module the old results. *)
Lemma train_model_outcome (w : Routes.World) :
  let w' := snd (Routes.train_model w) in
  (is_error (fst (Routes.train_model w)) = true /\
   models (Routes.predictor w') = models (Routes.predictor w) /\
   best_model (Routes.predictor w') = best_model (Routes.predictor w) /\
   best_model_name (Routes.predictor w')
     = best_model_name (Routes.predictor w) /\
   Routes.model_results w' = Routes.model_results w) \/
  (exists name r classes,
     fst (Routes.train_model w) = JsonTrained name (metrics r) /\
     models (Routes.predictor w') = Routes.model_results w' /\
     best_model (Routes.predictor w') = Some (model r) /\
     best_model_name (Routes.predictor w') = Some name /\
     dict_get (Routes.model_results w') name = Some r /\
     is_Some (Routes.X_test_global w') /\
     is_Some (Routes.y_test_global w') /\
     label_encoders (preprocessor (Routes.predictor w')) !! "Gender"
       = Some {| classes_ := Some classes |}) \/
  (is_error (fst (Routes.train_model w)) = true /\
   Routes.model_results w' = Routes.model_results w /\
   exists name r e,
     print (winner_line name) = Raise e /\
     fst (Routes.train_model w) = JsonError (str e) /\
     (models (Routes.predictor w')).*1 = menu.*1 /\
     best_model (Routes.predictor w') = Some (model r) /\
     best_model_name (Routes.predictor w') = Some name /\
     dict_get (models (Routes.predictor w')) name = Some r).
Proof.
  unfold Routes.train_model.
  destruct (load_and_clean_data "synthetic_data.csv" (Routes.np_random w))
    as [df g]. simpl.
  destruct (feature_engineering df) as [df'|e]; simpl; [|left; auto].
  destruct (prepare_features _ df' true) as [[[X y]|e] pre] eqn:Eprep; simpl;
    [|left; auto].
  destruct (train_test_split X y 0.2 42)
    as [[[[X_train X_test] y_train] y_test]|e]; simpl; [|left; auto].
  destruct (train_models _ X_train y_train X_test y_test)
    as [[results|e] p] eqn:E; simpl.
  - destruct (train_models_ok _ _ _ _ _ _ _ E)
      as (Hkeys & Hmodels & Hpre & i & name & r & _ & Hget & Hname & Hbest & _).
    rewrite Hname, Hget. simpl. right. left.
    destruct (prepare_features_fit_stores _ _ _ _ _ Eprep) as [classes Hcl].
    exists name, r, classes. rewrite Hpre. simpl.
    repeat split; eauto.
  - apply train_models_raise in E
      as [-> | (results & name & r & Hall & _ & Hget & Hprint & ->)]; simpl.
    + left. auto.
    + right. right. split; [reflexivity|]. split; [reflexivity|].
      exists name, r, e. simpl.
      pose proof (evaluate_all_keys menu [] results _ _ _ _ menu_NoDup Hall).
      auto 10.
Qed.

(** A prediction request on a consistent state leaves a consistent
    state, whether it answers or fails.  So does a training request, with
    one exception: when the whole menu has been evaluated and the print
    that announces the winner raises, the request answers an error, the
    predictor holds the results of the new run with their winner, and the
    module's results are still the old ones. *)
Theorem requests_keep_consistency (w : Routes.World)
    (request_json : gmap string value) :
  consistent w ->
  consistent (snd (Routes.predict w request_json)) /\
  (consistent (snd (Routes.train_model w)) \/
   exists name e,
     print (winner_line name) = Raise e /\
     fst (Routes.train_model w) = JsonError (str e) /\
     best_model_name (Routes.predictor (snd (Routes.train_model w)))
       = Some name /\
     (models (Routes.predictor (snd (Routes.train_model w)))).*1 = menu.*1 /\
     Routes.model_results (snd (Routes.train_model w))
       = Routes.model_results w).
Proof.
  intros Hc. split.
  - unfold Routes.predict.
    destruct (best_model (Routes.predictor w)) eqn:Eb; [|exact Hc].
    destruct (predict_single (Routes.predictor w) request_json) as [r p] eqn:Ep.
    assert (Hp : p = Routes.predictor w).
    { revert Ep. unfold predict_single. rewrite Eb.
      pose proof (prepare_features_apply_keeps
                    (preprocessor (Routes.predictor w))
                    (single_row request_json)) as Hk.
      destruct (prepare_features _ _ false) as [r' pre]. simpl in Hk. subst pre.
      rewrite <- Eb.
      destruct r' as [[X y]|e]; intros [= _ <-];
        destruct (Routes.predictor w); reflexivity. }
    subst p. exact Hc.
  - destruct (train_model_outcome w) as
      [(_ & Hm & Hb & Hn & Hr)
      |[(name & r & classes & _ & Hm & Hb & Hn & Hg & _)
       |(_ & Hr & name & r & e & Hprint & Hresp & Hkeys & _ & Hn & _)]];
      unfold consistent in *.
    + left. rewrite Hm, Hb, Hn, Hr. exact Hc.
    + left. rewrite Hm, Hb, Hn. split; [reflexivity|]. eauto.
    + right. exists name, e. auto.
Qed.

(** Once a training request has succeeded, the fallback mapping is out of
    reach: a fitted gender encoder is stored, and a prediction request for
    a complete record whose gender is not one of its classes is answered
    with the encoder's unseen-label error. *)
Theorem trained_app_rejects_unseen_gender (w : Routes.World) :
  is_error (fst (Routes.train_model w)) = false ->
  exists classes,
    label_encoders
      (preprocessor (Routes.predictor (snd (Routes.train_model w))))
      !! "Gender" = Some {| classes_ := Some classes |} /\
    forall (data : gmap string value) (s : string),
      (forall c, c ∈ feature_cols -> is_Some (data !! c)) ->
      data !! "Gender" = Some (VStr s) ->
      s ∉ classes ->
      fst (Routes.predict (snd (Routes.train_model w)) data)
        = JsonError "y contains previously unseen labels".
Proof.
  intros Hok.
  destruct (train_model_outcome w) as
    [(Herr & _)
    |[(name & r & classes & _ & _ & Hb & _ & _ & _ & _ & Hcl)|(Herr & _)]];
    [congruence| |congruence].
  exists classes. split; [exact Hcl|].
  intros data s Hall Hg Hs.
  set (w' := snd (Routes.train_model w)) in *.
  unfold Routes.predict. rewrite Hb.
  unfold predict_single. rewrite Hb.
  pose proof (prepare_features_apply (preprocessor (Routes.predictor w'))
                (single_row data) [VStr s]
                (single_row_columns data Hall)) as Hprep.
  rewrite df_lookup_single_row, Hg in Hprep. specialize (Hprep eq_refl).
  rewrite Hcl in Hprep.
  rewrite (transform_single {| classes_ := Some classes |} classes s eq_refl)
    in Hprep.
  rewrite (index_of_None s classes Hs) in Hprep.
  rewrite Hprep. reflexivity.
Qed.
End StateFacts.

(** ** Feature importance *)

Lemma insert_desc_Permutation (row : string * Q) (rows : list (string * Q)) :
  Permutation (insert_desc row rows) (row :: rows).
Proof.
  induction rows as [|r rows IH]; simpl; [reflexivity|].
  destruct (Qltb (snd r) (snd row)); [reflexivity|].
  rewrite IH. apply perm_swap.
Qed.

Lemma sort_values_desc_Permutation (rows : list (string * Q)) :
  Permutation (sort_values_desc rows) rows.
Proof.
  unfold sort_values_desc. induction rows as [|r rows IH]; simpl; [reflexivity|].
  rewrite insert_desc_Permutation, IH. reflexivity.
Qed.

Lemma insert_desc_descending (row : string * Q) (rows : list (string * Q)) :
  descending rows -> descending (insert_desc row rows).
Proof.
  unfold descending. induction rows as [|r rows IH]; simpl; intros Hs.
  - repeat constructor.
  - destruct (Qltb (snd r) (snd row)) eqn:E.
    + apply Qltb_lt in E. constructor; [exact Hs|].
      constructor. apply Qlt_le_weak, E.
    + apply Qltb_ge in E. apply Sorted_inv in Hs as [Hs Hhd].
      constructor; [apply IH, Hs|].
      destruct rows as [|r' rows]; simpl.
      * constructor. exact E.
      * destruct (Qltb (snd r') (snd row)).
        -- constructor. exact E.
        -- constructor. apply HdRel_inv in Hhd. exact Hhd.
Qed.

Lemma sort_values_desc_descending (rows : list (string * Q)) :
  descending (sort_values_desc rows).
Proof.
  unfold sort_values_desc. induction rows as [|r rows IH]; simpl.
  - constructor.
  - apply insert_desc_descending, IH.
Qed.

Lemma descending_take (n : nat) (rows : list (string * Q)) :
  descending rows -> descending (take n rows).
Proof.
  unfold descending. revert n. induction rows as [|r rows IH]; intros n Hs.
  - destruct n; constructor.
  - destruct n as [|n]; [constructor|]. simpl.
    apply Sorted_inv in Hs as [Hs Hhd].
    constructor; [apply IH, Hs|].
    destruct rows as [|r' rows]; [destruct n; constructor|].
    destruct n as [|n]; [constructor|]. simpl. constructor.
    apply HdRel_inv in Hhd. exact Hhd.
Qed.

Lemma importance_frame_inv (names : list string) (importance : list Q)
    (rows : list (string * Q)) :
  importance_frame names importance = Ok rows ->
  rows.*1 = names /\ rows.*2 = importance /\ length rows = length names.
Proof.
  unfold importance_frame.
  destruct (Nat.eqb_spec (length names) (length importance)) as [Hl|];
    [|discriminate].
  intros [= <-]. split; [|split].
  - apply fst_zip. lia.
  - apply snd_zip. lia.
  - rewrite length_zip. lia.
Qed.

Section ImportanceFacts.
Context `{SklearnAttributes}.

Lemma get_feature_importance_descending (self : NoShowPredictor)
    (feature_names : list string) (rows : list (string * Q)) :
  get_feature_importance self feature_names = Ok (Some rows) ->
  descending rows.
Proof.
  unfold get_feature_importance, mbind, Exc_bind. intros E.
  destruct (best_model self) as [best|]; [|discriminate].
  destruct (feature_importances_ best) as [importance|].
  - destruct (importance_frame feature_names importance) as [df|];
      [|discriminate].
    injection E as <-. apply sort_values_desc_descending.
  - destruct (coef_ best) as [coef|]; [|discriminate].
    destruct (first coef) as [row|]; [|discriminate].
    destruct (importance_frame feature_names (map Qabs row)) as [df|];
      [|discriminate].
    injection E as <-. apply sort_values_desc_descending.
Qed.

(** When the retained model exposes importances or coefficients, the
    table of feature importances has one row per feature name, each name
    once in its place of the permutation, in non-increasing order of
    importance; the importances read from coefficients are absolute
    values, so none is negative.  Names and values of different lengths
    raise instead. *)
Theorem feature_importance_sorted (self : NoShowPredictor)
    (feature_names : list string) (rows : list (string * Q)) :
  get_feature_importance self feature_names = Ok (Some rows) ->
  descending rows /\
  Permutation rows.*1 feature_names /\
  length rows = length feature_names /\
  (forall best, best_model self = Some best ->
                feature_importances_ best = None ->
                Forall (fun row => (0 <= snd row)%Q) rows).
Proof.
  unfold get_feature_importance. intros E.
  destruct (best_model self) as [best|]; [|discriminate].
  assert (Hsorted : forall importance df,
             importance_frame feature_names importance = Ok df ->
             rows = sort_values_desc df ->
             descending rows /\ Permutation rows.*1 feature_names /\
             length rows = length feature_names /\
             Permutation rows.*2 importance).
  { intros importance df Hdf ->.
    apply importance_frame_inv in Hdf as (Hn & Hi & Hl).
    pose proof (sort_values_desc_Permutation df) as Hp.
    split; [apply sort_values_desc_descending|]. split; [|split].
    - rewrite <- Hn. apply fmap_Permutation, Hp.
    - rewrite <- Hl. apply Permutation_length, Hp.
    - rewrite <- Hi. apply fmap_Permutation, Hp. }
  destruct (feature_importances_ best) as [importance|] eqn:Efi.
  - unfold mbind, Exc_bind in E.
    destruct (importance_frame feature_names importance) as [df|] eqn:Edf;
      [|discriminate].
    injection E as E.
    destruct (Hsorted importance df Edf (eq_sym E)) as (Hd & Hp & Hl & _).
    split; [exact Hd|]. split; [exact Hp|]. split; [exact Hl|].
    intros best' [= <-] Hnone. congruence.
  - destruct (coef_ best) as [coef|]; [|discriminate].
    unfold mbind, Exc_bind in E.
    destruct (first coef) as [row|]; [|discriminate].
    destruct (importance_frame feature_names (map Qabs row)) as [df|] eqn:Edf;
      [|discriminate].
    injection E as E.
    destruct (Hsorted _ df Edf (eq_sym E)) as (Hd & Hp & Hl & Hv).
    split; [exact Hd|]. split; [exact Hp|]. split; [exact Hl|].
    intros _ _ _.
    assert (Hall : Forall (fun q => (0 <= q)%Q) rows.*2).
    { eapply Permutation_Forall; [symmetry; exact Hv|].
      apply Forall_fmap, Forall_forall. intros q _. apply Qabs_nonneg. }
    apply Forall_forall. intros entry Hentry.
    rewrite Forall_forall in Hall. apply Hall.
    apply list_elem_of_fmap. exists entry. split; [reflexivity | exact Hentry].
Qed.
End ImportanceFacts.

Lemma feature_importance_sorted_witness :
  let sk := Toy.sklearn Toy.all_fit in
  exists rows,
    @get_feature_importance sk (ToyAttributes.attributes Toy.all_fit)
      (Toy.trained {| label_encoders := ∅ |}) feature_cols = Ok (Some rows) /\
    descending rows /\ length rows = 14%nat.
Proof.
  intros sk.
  destruct (@get_feature_importance sk (ToyAttributes.attributes Toy.all_fit)
              (Toy.trained {| label_encoders := ∅ |}) feature_cols)
    as [[rows|]|e] eqn:E.
  - exists rows. split; [reflexivity|].
    destruct (@feature_importance_sorted sk
                (ToyAttributes.attributes Toy.all_fit) _ _ _ E)
      as (Hd & _ & Hl & _).
    split; [exact Hd | exact Hl].
  - exfalso. revert E. vm_compute. discriminate.
  - exfalso. revert E. vm_compute. discriminate.
Defined.

(** ** The performance route and the startup block *)

Section PerformanceFacts.
Context `{NumpyRandom} `{Pandas} `{SklearnAttributes} `{Stdout}.

(** After a training request has succeeded, the performance route
    reports, whenever it answers, the winner and the metrics the training
    request answered with, a ROC curve, and at most ten feature
    importances in non-increasing order. *)
Theorem performance_after_training (w : Routes.World)
    (name : string) (m : Metrics) (perf : Performance) :
  fst (Routes.train_model w) = JsonTrained name m ->
  Startup.model_performance (snd (Routes.train_model w)) = Ok perf ->
  exists curve importance,
    perf = PerformanceReport m (Some name) (Some curve) importance /\
    forall rows, importance = Some rows ->
                 (length rows <= 10)%nat /\ descending rows.
Proof.
  intros Htrain.
  destruct (train_model_outcome w) as
    [(Herr & _)
    |[(name' & r & classes & Hresp & Hm & Hb & Hn & Hg & [X HX] & [y Hy] & _)
     |(Herr & _)]].
  { rewrite Htrain in Herr. discriminate Herr. }
  2: { rewrite Htrain in Herr. discriminate Herr. }
  rewrite Htrain in Hresp. injection Hresp as -> ->.
  set (w' := snd (Routes.train_model w)) in *.
  unfold Startup.model_performance. rewrite Hb.
  destruct (Routes.model_results w') as [|entry results] eqn:Eres;
    [discriminate Hg|].
  unfold Startup.best_result. rewrite Hn, Eres, Hg, exc_bind_ok.
  unfold Startup.roc_curve_data. rewrite Hy.
  unfold Startup.feature_importance_data. rewrite HX.
  unfold mbind, Exc_bind.
  destruct (roc_curve y (probabilities r)) as [[[fpr tpr] thresholds]|];
    [|discriminate].
  destruct (get_feature_importance (Routes.predictor w') X.*1)
    as [importance_df|] eqn:Eimp; [|discriminate].
  intros [= <-]. eexists _, _. split; [reflexivity|].
  intros rows Hrows. destruct importance_df as [df|]; [|discriminate].
  injection Hrows as <-. split; [rewrite length_take; lia|].
  apply descending_take.
  exact (get_feature_importance_descending _ _ _ Eimp).
Qed.

(** While no model is retained, the performance route answers its
    not-trained error.  It still does after a training request that
    failed on an application with no model and no results: also when the
    failure is the one of the winner's announcement, which leaves a model
    in the predictor, because the module's results are still empty. *)
Theorem performance_untrained (w : Routes.World) :
  best_model (Routes.predictor w) = None ->
  Startup.model_performance w = Ok (PerformanceError "Model not trained yet") /\
  (Routes.model_results w = [] ->
   is_error (fst (Routes.train_model w)) = true ->
   Startup.model_performance (snd (Routes.train_model w))
     = Ok (PerformanceError "Model not trained yet")).
Proof.
  intros Hnone.
  assert (Hgen : forall w0 : Routes.World,
             best_model (Routes.predictor w0) = None ->
             Startup.model_performance w0
               = Ok (PerformanceError "Model not trained yet")).
  { intros w0 Hw0. unfold Startup.model_performance. rewrite Hw0.
    destruct (Routes.model_results w0); reflexivity. }
  split; [apply Hgen, Hnone|].
  intros Hempty Herr.
  destruct (train_model_outcome w) as
    [(_ & _ & Hb & _)|[(name & r & classes & Hresp & _)|(_ & Hr & _)]].
  - apply Hgen. rewrite Hb. exact Hnone.
  - rewrite Hresp in Herr. discriminate Herr.
  - unfold Startup.model_performance. rewrite Hr, Hempty. reflexivity.
Qed.

(** The startup block and the training route.  When the banner cannot be
    printed the block raises at once and leaves the module state alone.
    When it can, the block and the route are the same state transition;
    and the block completes only when the route would have answered with
    a success. *)
Theorem main_matches_train_route (w : Routes.World) :
  (forall e, print banner = Raise e -> Startup.main w = (Raise e, w)) /\
  (print banner = Ok tt ->
   snd (Startup.main w) = snd (Routes.train_model w)) /\
  (is_Ok (fst (Startup.main w)) = true ->
   print banner = Ok tt /\
   is_error (fst (Routes.train_model w)) = false).
Proof.
  unfold Startup.main.
  destruct (print banner) as [[]|e0].
  2: { split; [intros e [= <-]; reflexivity|].
       split; [discriminate | discriminate]. }
  split; [discriminate|].
  unfold Routes.train_model.
  destruct (load_and_clean_data "synthetic_data.csv" (Routes.np_random w))
    as [df g]. simpl.
  destruct (feature_engineering df) as [df'|e]; simpl;
    [|split; [reflexivity | discriminate]].
  destruct (prepare_features _ df' true) as [[[X y]|e] pre]; simpl;
    [|split; [reflexivity | discriminate]].
  destruct (train_test_split X y 0.2 42)
    as [[[[X_train X_test] y_train] y_test]|e]; simpl;
    [|split; [reflexivity | discriminate]].
  destruct (train_models _ X_train y_train X_test y_test)
    as [[results|e] p] eqn:E; simpl;
    [|split; [reflexivity | discriminate]].
  destruct (train_models_ok _ _ _ _ _ _ _ E)
    as (_ & _ & _ & i & name & r & _ & Hget & Hname & _).
  rewrite Hname, Hget. simpl. split; [reflexivity|]. intros _.
  split; reflexivity.
Qed.
End PerformanceFacts.

Lemma performance_untrained_witness :
  @Startup.model_performance Toy.numpy (Toy.sklearn Toy.is_svc)
    (ToyAttributes.attributes Toy.is_svc) Toy.fresh
  = Ok (PerformanceError "Model not trained yet").
Proof.
  exact (proj1 (@performance_untrained Toy.numpy Toy.pandas
                  (Toy.sklearn Toy.is_svc)
                  (ToyAttributes.attributes Toy.is_svc) Toy.utf8
                  Toy.fresh eq_refl)).
Defined.

(** ** Instances of the properties above *)

Lemma prepare_features_columns_witness :
  exists X y self',
    prepare_features {| label_encoders := ∅ |} Toy.table true
      = (Ok (X, y), self') /\
    X.*1 = feature_cols.
Proof.
  destruct (prepare_features {| label_encoders := ∅ |} Toy.table true)
    as [[[X y]|e] self'] eqn:E.
  - exists X, y, self'. split; [reflexivity|].
    exact (proj1 (prepare_features_columns _ _ _ _ _ _ E)).
  - exfalso. revert E. vm_compute. discriminate.
Defined.

Lemma prepare_features_missing_witness :
  prepare_features {| label_encoders := ∅ |} [] true
    = (Raise (KeyError feature_cols), {| label_encoders := ∅ |}).
Proof.
  apply (prepare_features_missing {| label_encoders := ∅ |} [] true).
  discriminate.
Defined.

Lemma prepare_features_fit_then_apply_witness :
  exists X y self',
    prepare_features {| label_encoders := ∅ |} Toy.table true
      = (Ok (X, y), self') /\
    prepare_features self' Toy.table false = (Ok (X, y), self').
Proof.
  destruct (prepare_features {| label_encoders := ∅ |} Toy.table true)
    as [[[X y]|e] self'] eqn:E.
  - exists X, y, self'. split; [reflexivity|].
    exact (prepare_features_fit_then_apply _ _ _ _ _ E).
  - exfalso. revert E. vm_compute. discriminate.
Defined.

Lemma raw_table_datetime (col : string) :
  col ∈ ["ScheduledDay"; "AppointmentDay"] ->
  datetime_column ToyTables.raw col.
Proof.
  intros Hc. repeat (apply elem_of_cons in Hc as [-> | Hc]);
    try (eexists; split; reflexivity).
  inversion Hc.
Qed.

Lemma raw_table_int_columns (c : string) :
  c ∈ raw_int_cols -> is_Ok (int_column ToyTables.raw c) = true.
Proof.
  intros Hc. unfold raw_int_cols in Hc.
  repeat (apply elem_of_cons in Hc as [-> | Hc]); try reflexivity.
  inversion Hc.
Qed.

Lemma feature_engineering_succeeds_witness :
  exists df',
    @feature_engineering Toy.pandas ToyTables.raw = Ok df' /\
    is_Some (df_lookup df' "risk_score").
Proof.
  destruct (@feature_engineering_succeeds Toy.pandas ToyTables.raw
              (raw_table_datetime "ScheduledDay" ltac:(by_evaluation))
              (raw_table_datetime "AppointmentDay" ltac:(by_evaluation))
              raw_table_int_columns)
    as (df' & Hrun & _ & Hnew & _).
  exists df'. split; [exact Hrun|]. apply Hnew. by_evaluation.
Defined.

Lemma feature_engineering_idempotent_witness :
  exists df',
    @feature_engineering Toy.pandas ToyTables.raw = Ok df' /\
    @feature_engineering Toy.pandas df' = Ok df'.
Proof.
  destruct (@feature_engineering Toy.pandas ToyTables.raw) as [df'|e] eqn:E.
  - exists df'. split; [reflexivity|].
    exact (@feature_engineering_idempotent Toy.pandas _ _
             (raw_table_datetime "ScheduledDay" ltac:(by_evaluation))
             (raw_table_datetime "AppointmentDay" ltac:(by_evaluation)) E).
  - exfalso. revert E. vm_compute. discriminate.
Defined.

(** A [POST /train] on [ToyTables.fresh] when the console cannot encode
    the winner's line. *)
Local Abbreviation unannounced_run :=
  (@Routes.train_model Toy.numpy Toy.pandas (Toy.sklearn Toy.all_fit)
     Toy.ascii ToyTables.fresh).

Lemma unannounced_run_summary :
  is_error (fst unannounced_run)
  && Toy.some (best_model (Routes.predictor (snd unannounced_run)))
  && Nat.eqb (length (Routes.model_results (snd unannounced_run))) 0
  && Nat.eqb (length (models (Routes.predictor (snd unannounced_run)))) 4
  = true.
Proof. vm_compute. reflexivity. Qed.

Lemma requests_keep_consistency_witness :
  consistent ToyTables.fresh /\
  ~ consistent (snd unannounced_run) /\
  exists name e,
    @print Toy.ascii (winner_line name) = Raise e /\
    fst unannounced_run = JsonError (str e).
Proof.
  assert (Hstart : consistent ToyTables.fresh) by apply start_consistent.
  assert (Hnot : ~ consistent (snd unannounced_run)).
  { pose proof unannounced_run_summary as S.
    apply andb_true_iff in S as [S S4]. apply andb_true_iff in S as [_ S0].
    pose proof (proj1 (Nat.eqb_eq _ _) S0) as E0.
    pose proof (proj1 (Nat.eqb_eq _ _) S4) as E4.
    intros [Hm _].
    assert (H04 : 0%nat = 4%nat)
      by exact (eq_trans (eq_sym E0) (eq_trans (f_equal length Hm) E4)).
    discriminate H04. }
  split; [exact Hstart|]. split; [exact Hnot|].
  destruct (proj2 (@requests_keep_consistency Toy.numpy Toy.pandas
                     (Toy.sklearn Toy.all_fit) Toy.ascii ToyTables.fresh ∅
                     Hstart))
    as [Hcons | (name & e & Hprint & Hresp & _)].
  - contradiction.
  - exists name, e. split; [exact Hprint | exact Hresp].
Defined.

(** What a [POST /train] on [ToyTables.fresh] answers and leaves behind. *)
Local Abbreviation successful_run :=
  (@Routes.train_model Toy.numpy Toy.pandas (Toy.sklearn Toy.all_fit)
     Toy.utf8 ToyTables.fresh).

Local Abbreviation performance_after_run :=
  (@Startup.model_performance Toy.numpy (Toy.sklearn Toy.all_fit)
     (ToyAttributes.attributes Toy.all_fit) (snd successful_run)).

Lemma successful_run_summary :
  fst successful_run
    = JsonTrained "Random Forest"
        {| accuracy := 0.8; precision := 0.5; recall := 0.5; f1 := 0.5;
           roc_auc := 0.7 |} /\
  is_Ok performance_after_run = true.
Proof. split; vm_compute; reflexivity. Qed.

Lemma trained_app_rejects_unseen_gender_witness :
  is_error (fst successful_run) = false /\
  exists classes,
    label_encoders (preprocessor (Routes.predictor (snd successful_run)))
      !! "Gender" = Some {| classes_ := Some classes |}.
Proof.
  assert (Hok : is_error (fst successful_run) = false).
  { rewrite (proj1 successful_run_summary). reflexivity. }
  split; [exact Hok|].
  destruct (@trained_app_rejects_unseen_gender Toy.numpy Toy.pandas
              (Toy.sklearn Toy.all_fit) Toy.utf8 ToyTables.fresh Hok)
    as (classes & Hcl & _).
  exists classes. exact Hcl.
Defined.

Lemma performance_after_training_witness :
  exists perf curve importance,
    performance_after_run = Ok perf /\
    perf = PerformanceReport
             {| accuracy := 0.8; precision := 0.5; recall := 0.5; f1 := 0.5;
                roc_auc := 0.7 |}
             (Some "Random Forest") (Some curve) importance.
Proof.
  destruct successful_run_summary as [Hresp Hperf].
  destruct performance_after_run as [perf|e] eqn:E; [|discriminate Hperf].
  destruct (@performance_after_training Toy.numpy Toy.pandas
              (Toy.sklearn Toy.all_fit) (ToyAttributes.attributes Toy.all_fit)
              Toy.utf8 ToyTables.fresh _ _ perf Hresp E)
    as (curve & importance & Hrep & _).
  exists perf, curve, importance. split; [reflexivity | exact Hrep].
Defined.

Lemma feature_engineering_columns_witness :
  exists df' Age,
    @feature_engineering Toy.pandas ToyTables.raw = Ok df' /\
    int_column ToyTables.raw "Age" = Ok Age /\
    df_lookup df' "age_group"
      = Some (map (fun a => categorical (age_group a)) Age).
Proof.
  destruct (@feature_engineering Toy.pandas ToyTables.raw) as [df'|e] eqn:E.
  - destruct (@feature_engineering_columns Toy.pandas _ _ E)
      as (Age & _ & _ & _ & HAge & _ & _ & _ & Hgroup & _).
    exists df', Age. split; [reflexivity|]. split; [exact HAge | exact Hgroup].
  - exfalso. revert E. vm_compute. discriminate.
Defined.
